(** * RealTime-Canva-Client: layer isolation and snapshot history

    A shallow embedding of the drawing core of the collaborative canvas
    client: [CanvasManager] (canvas.js), the inbound listeners of
    [WebSocketClient] (websocket.js) and the wiring done by
    [CollaborativeCanvasApp].

    Modelling conventions.
    - A canvas element and its 2D context are one value of type
      [Canvas2D.Canvas]: the bitmap together with the drawing state the
      code sets (line style, composite operation, stroke style, current
      path).  The source holds them as the pairs [userCanvas]/[userCtx]
      and [{ canvas, ctx }].
    - A bitmap is a finite map from device pixels to the colour painted
      there; a pixel that is absent is fully transparent.  Paint is opaque
      (the colour picker yields [#rrggbb], the eraser uses
      [rgba(0,0,0,1)]) and coverage is all-or-nothing, so anti-aliasing
      is not represented.
    - Which pixels a stroked path covers is decided by the browser; it is
      the parameter [rasterize] of the development (class [Rasterizer]).
    - [toDataURL] followed by an image load is lossless, and drawing a
      full-size image over the full canvas rectangle does not resample.
      Resizing ([setCanvasSize]) is outside the model.
    - Image decoding is asynchronous in the browser; here every operation
      runs to completion (its [onload] or [onerror] callback included)
      before the next one starts.  A promise is represented by the value
      it settles to.
    - [console.warn] and [console.error] append to the [console] field;
      [console.log], toasts and pointer capture are not represented. *)

From Stdlib Require Import ZArith Lia.
From stdpp Require Import base option list gmap strings.

Open Scope string_scope.
Open Scope list_scope.
Open Scope Z_scope.

(** ** The Canvas 2D interface used by the program *)

Module Canvas2D.

Record Point := mkPoint { x : Z; y : Z }.

(** A sub-path of the current path: its vertices, oldest first. *)
Record Subpath := mkSubpath { vertices : list Point; closed : bool }.

Inductive CompositeOp := SourceOver | DestinationOut.
Inductive LineCap := CapButt | CapRound.
Inductive LineJoin := JoinMiter | JoinRound.

#[export] Instance CompositeOp_eq_dec : EqDecision CompositeOp.
Proof. solve_decision. Defined.

(** The device pixels covered when a path is stroked with a given line
    style.  The embedding is parametric in it. *)
Class Rasterizer :=
  rasterize : LineCap -> LineJoin -> Z -> list Subpath -> gset (Z * Z).

Record Canvas := mkCanvas {
  bitmap : gmap (Z * Z) string;
  lineCap : LineCap;
  lineJoin : LineJoin;
  lineWidth : Z;
  globalCompositeOperation : CompositeOp;
  strokeStyle : string;
  path : list Subpath
}.

(** [document.createElement('canvas')] with a fresh context. *)
Definition createCanvas : Canvas :=
  mkCanvas ∅ CapButt JoinMiter 1 SourceOver "#000000" [].

Definition set_bitmap (b : gmap (Z * Z) string) (c : Canvas) : Canvas :=
  mkCanvas b (lineCap c) (lineJoin c) (lineWidth c)
           (globalCompositeOperation c) (strokeStyle c) (path c).
Definition set_lineCap (v : LineCap) (c : Canvas) : Canvas :=
  mkCanvas (bitmap c) v (lineJoin c) (lineWidth c)
           (globalCompositeOperation c) (strokeStyle c) (path c).
Definition set_lineJoin (v : LineJoin) (c : Canvas) : Canvas :=
  mkCanvas (bitmap c) (lineCap c) v (lineWidth c)
           (globalCompositeOperation c) (strokeStyle c) (path c).
(** The setter ignores values that are not positive. *)
Definition set_lineWidth (v : Z) (c : Canvas) : Canvas :=
  mkCanvas (bitmap c) (lineCap c) (lineJoin c)
           (if 0 <? v then v else lineWidth c)
           (globalCompositeOperation c) (strokeStyle c) (path c).
Definition set_globalCompositeOperation (v : CompositeOp) (c : Canvas) : Canvas :=
  mkCanvas (bitmap c) (lineCap c) (lineJoin c) (lineWidth c)
           v (strokeStyle c) (path c).
Definition set_strokeStyle (v : string) (c : Canvas) : Canvas :=
  mkCanvas (bitmap c) (lineCap c) (lineJoin c) (lineWidth c)
           (globalCompositeOperation c) v (path c).
Definition set_path (v : list Subpath) (c : Canvas) : Canvas :=
  mkCanvas (bitmap c) (lineCap c) (lineJoin c) (lineWidth c)
           (globalCompositeOperation c) (strokeStyle c) v.

(** *** Compositing *)

(** Opaque paint of colour [col] over the pixels [cover]. *)
Definition paint (col : string) (cover : gset (Z * Z)) : gmap (Z * Z) string :=
  gset_to_gmap col cover.

(** Source-over: the source wins wherever it has a pixel. *)
Definition source_over (src dst : gmap (Z * Z) string) : gmap (Z * Z) string :=
  src ∪ dst.

(** Destination-out with an opaque source: the destination keeps only
    the pixels the source does not touch. *)
Definition destination_out (src dst : gmap (Z * Z) string) : gmap (Z * Z) string :=
  dst ∖ src.

Definition composite (op : CompositeOp) (src dst : gmap (Z * Z) string)
  : gmap (Z * Z) string :=
  match op with
  | SourceOver => source_over src dst
  | DestinationOut => destination_out src dst
  end.

(** *** Path construction and drawing *)

Definition beginPath (c : Canvas) : Canvas := set_path [] c.

Definition moveTo (p : Point) (c : Canvas) : Canvas :=
  set_path (path c ++ [mkSubpath [p] false]) c.

(** With no sub-path yet, [lineTo] behaves as [moveTo]. *)
Definition lineTo (p : Point) (c : Canvas) : Canvas :=
  match last (path c) with
  | None => moveTo p c
  | Some sp =>
      set_path (removelast (path c) ++ [mkSubpath (vertices sp ++ [p]) (closed sp)]) c
  end.

(** Marks the last sub-path closed and opens a new one at its first
    vertex; nothing is drawn. *)
Definition closePath (c : Canvas) : Canvas :=
  match last (path c) with
  | None => c
  | Some sp =>
      set_path (removelast (path c)
                ++ [mkSubpath (vertices sp) true; mkSubpath (take 1 (vertices sp)) false]) c
  end.

(** Strokes the whole current path with the current style. *)
Definition stroke `{Rasterizer} (c : Canvas) : Canvas :=
  set_bitmap
    (composite (globalCompositeOperation c)
       (paint (strokeStyle c) (rasterize (lineCap c) (lineJoin c) (lineWidth c) (path c)))
       (bitmap c))
    c.

(** [save(); setTransform(1,0,0,1,0,0); clearRect(0,0,width,height);
    restore()]: every pixel becomes transparent, the state is kept. *)
Definition clearRect (c : Canvas) : Canvas := set_bitmap ∅ c.

(** [drawImage(img, 0, 0, rect.width, rect.height)] for an image of the
    canvas's size, under the current composite operation. *)
Definition drawImage (img : gmap (Z * Z) string) (c : Canvas) : Canvas :=
  set_bitmap (composite (globalCompositeOperation c) img (bitmap c)) c.

(** *** Snapshots *)

(** A data URL: either the encoding of a bitmap or a string that is no
    image. *)
Inductive DataUrl :=
| PngImage (img : gmap (Z * Z) string)
| NotAnImage (s : string).

Definition toDataURL (c : Canvas) : DataUrl := PngImage (bitmap c).

(** [img.src = dataUrl]: [Some] when [onload] fires, [None] when
    [onerror] does. *)
Definition loadImage (u : DataUrl) : option (gmap (Z * Z) string) :=
  match u with
  | PngImage img => Some img
  | NotAnImage _ => None
  end.

(** JavaScript truthiness of a string. *)
Definition nonempty (s : string) : bool :=
  match s with EmptyString => false | String _ _ => true end.

Definition truthyUrl (u : DataUrl) : bool :=
  match u with
  | PngImage _ => true
  | NotAnImage s => nonempty s
  end.

End Canvas2D.

(** ** Payloads on the wire *)

Module Wire.

(** The object carried by an inbound or outbound event.  [pos], [userId]
    and [canvasData] are [None] when the property is missing; a missing
    [type] or [mode] is the empty string, which equals none of the
    literals the code compares with, and a missing [width] is [0],
    which the [lineWidth] setter ignores. *)
Record Data := mkData {
  type : string;
  pos : option Canvas2D.Point;
  mode : string;
  color : string;
  width : Z;
  userId : option string;
  canvasData : option Canvas2D.DataUrl
}.

(** [!!userId]: the property is present and not the empty string. *)
Definition truthyId (d : Data) : option string :=
  match userId d with
  | Some u => if Canvas2D.nonempty u then Some u else None
  | None => None
  end.

(** [!!canvasData]. *)
Definition truthyData (d : Data) : option Canvas2D.DataUrl :=
  match canvasData d with
  | Some u => if Canvas2D.truthyUrl u then Some u else None
  | None => None
  end.

End Wire.

(** ** Promises and abrupt completion *)

Inductive Promise (A : Type) :=
| Resolved (a : A)
| Rejected (reason : string).
Arguments Resolved {A} a.
Arguments Rejected {A} reason.

(** [p.then(f)] for a function [f] that does not throw. *)
Definition then_ {A B : Type} (p : Promise A) (f : A -> B) : Promise B :=
  match p with
  | Resolved a => Resolved (f a)
  | Rejected e => Rejected e
  end.

(** How a synchronous call ends, with the state it leaves behind. *)
Inductive Completion (S : Type) :=
| Normal (s : S)
| Throw (error : string) (s : S).
Arguments Normal {S} s.
Arguments Throw {S} error s.

Definition stateOf {S : Type} (c : Completion S) : S :=
  match c with Normal s => s | Throw _ s => s end.

(** ** JavaScript arrays used as stacks *)

Definition push {A : Type} (l : list A) (a : A) : list A := l ++ [a].
Definition pop {A : Type} (l : list A) : option A * list A := (last l, removelast l).
Definition shift {A : Type} (l : list A) : list A := tail l.

(** ** CanvasManager *)

(** A line written by [console.warn] or [console.error]. *)
Inductive Diagnostic :=
| Warning (msg : string)
| Failure (msg : string).

Record PointerEvent := mkPointerEvent {
  button : option Z;
  pointerId : Z;
  clientX : Z;
  clientY : Z
}.

(** [canvas] is the bitmap of the visible canvas; [rectLeft], [rectTop]
    are the origin reported by [getBoundingClientRect]; [onStateChange]
    tells whether a listener is attached, and [emitted] collects the
    payloads it was called with for ['draw']. *)
Record CanvasManager := mkCanvasManager {
  canvas : gmap (Z * Z) string;
  userCanvas : Canvas2D.Canvas;
  remoteCanvases : list (string * Canvas2D.Canvas);
  drawing : bool;
  lastPos : Canvas2D.Point;
  mode : string;
  strokeColor : string;
  lineWidth : Z;
  undoStack : list Canvas2D.DataUrl;
  redoStack : list Canvas2D.DataUrl;
  onStateChange : bool;
  rectLeft : Z;
  rectTop : Z;
  emitted : list Wire.Data;
  console : list Diagnostic
}.

Definition MAX_STACK : nat := 50.

Definition set_canvas (v : gmap (Z * Z) string) (cm : CanvasManager)
  : CanvasManager :=
  mkCanvasManager v (userCanvas cm) (remoteCanvases cm) (drawing cm)
    (lastPos cm) (mode cm) (strokeColor cm) (lineWidth cm) (undoStack cm)
    (redoStack cm) (onStateChange cm) (rectLeft cm) (rectTop cm)
    (emitted cm) (console cm).
Definition set_userCanvas (v : Canvas2D.Canvas) (cm : CanvasManager)
  : CanvasManager :=
  mkCanvasManager (canvas cm) v (remoteCanvases cm) (drawing cm)
    (lastPos cm) (mode cm) (strokeColor cm) (lineWidth cm) (undoStack cm)
    (redoStack cm) (onStateChange cm) (rectLeft cm) (rectTop cm)
    (emitted cm) (console cm).
Definition set_remoteCanvases (v : list (string * Canvas2D.Canvas)) (cm : CanvasManager)
  : CanvasManager :=
  mkCanvasManager (canvas cm) (userCanvas cm) v (drawing cm) (lastPos cm)
    (mode cm) (strokeColor cm) (lineWidth cm) (undoStack cm) (redoStack cm)
    (onStateChange cm) (rectLeft cm) (rectTop cm) (emitted cm) (console cm).
Definition set_drawing (v : bool) (cm : CanvasManager)
  : CanvasManager :=
  mkCanvasManager (canvas cm) (userCanvas cm) (remoteCanvases cm) v
    (lastPos cm) (mode cm) (strokeColor cm) (lineWidth cm) (undoStack cm)
    (redoStack cm) (onStateChange cm) (rectLeft cm) (rectTop cm)
    (emitted cm) (console cm).
Definition set_lastPos (v : Canvas2D.Point) (cm : CanvasManager)
  : CanvasManager :=
  mkCanvasManager (canvas cm) (userCanvas cm) (remoteCanvases cm)
    (drawing cm) v (mode cm) (strokeColor cm) (lineWidth cm) (undoStack cm)
    (redoStack cm) (onStateChange cm) (rectLeft cm) (rectTop cm)
    (emitted cm) (console cm).
Definition set_mode (v : string) (cm : CanvasManager)
  : CanvasManager :=
  mkCanvasManager (canvas cm) (userCanvas cm) (remoteCanvases cm)
    (drawing cm) (lastPos cm) v (strokeColor cm) (lineWidth cm)
    (undoStack cm) (redoStack cm) (onStateChange cm) (rectLeft cm)
    (rectTop cm) (emitted cm) (console cm).
Definition set_strokeColor (v : string) (cm : CanvasManager)
  : CanvasManager :=
  mkCanvasManager (canvas cm) (userCanvas cm) (remoteCanvases cm)
    (drawing cm) (lastPos cm) (mode cm) v (lineWidth cm) (undoStack cm)
    (redoStack cm) (onStateChange cm) (rectLeft cm) (rectTop cm)
    (emitted cm) (console cm).
Definition set_lineWidth (v : Z) (cm : CanvasManager)
  : CanvasManager :=
  mkCanvasManager (canvas cm) (userCanvas cm) (remoteCanvases cm)
    (drawing cm) (lastPos cm) (mode cm) (strokeColor cm) v (undoStack cm)
    (redoStack cm) (onStateChange cm) (rectLeft cm) (rectTop cm)
    (emitted cm) (console cm).
Definition set_undoStack (v : list Canvas2D.DataUrl) (cm : CanvasManager)
  : CanvasManager :=
  mkCanvasManager (canvas cm) (userCanvas cm) (remoteCanvases cm)
    (drawing cm) (lastPos cm) (mode cm) (strokeColor cm) (lineWidth cm) v
    (redoStack cm) (onStateChange cm) (rectLeft cm) (rectTop cm)
    (emitted cm) (console cm).
Definition set_redoStack (v : list Canvas2D.DataUrl) (cm : CanvasManager)
  : CanvasManager :=
  mkCanvasManager (canvas cm) (userCanvas cm) (remoteCanvases cm)
    (drawing cm) (lastPos cm) (mode cm) (strokeColor cm) (lineWidth cm)
    (undoStack cm) v (onStateChange cm) (rectLeft cm) (rectTop cm)
    (emitted cm) (console cm).
Definition set_onStateChange (v : bool) (cm : CanvasManager)
  : CanvasManager :=
  mkCanvasManager (canvas cm) (userCanvas cm) (remoteCanvases cm)
    (drawing cm) (lastPos cm) (mode cm) (strokeColor cm) (lineWidth cm)
    (undoStack cm) (redoStack cm) v (rectLeft cm) (rectTop cm) (emitted cm)
    (console cm).
Definition set_emitted (v : list Wire.Data) (cm : CanvasManager)
  : CanvasManager :=
  mkCanvasManager (canvas cm) (userCanvas cm) (remoteCanvases cm)
    (drawing cm) (lastPos cm) (mode cm) (strokeColor cm) (lineWidth cm)
    (undoStack cm) (redoStack cm) (onStateChange cm) (rectLeft cm)
    (rectTop cm) v (console cm).
Definition set_console (v : list Diagnostic) (cm : CanvasManager)
  : CanvasManager :=
  mkCanvasManager (canvas cm) (userCanvas cm) (remoteCanvases cm)
    (drawing cm) (lastPos cm) (mode cm) (strokeColor cm) (lineWidth cm)
    (undoStack cm) (redoStack cm) (onStateChange cm) (rectLeft cm)
    (rectTop cm) (emitted cm) v.

(** The constructor, after [initCanvas]. *)
Definition newCanvasManager (left top : Z) : CanvasManager :=
  mkCanvasManager ∅ Canvas2D.createCanvas [] false (Canvas2D.mkPoint 0 0)
    "brush" "#000000" 5 [] [] false left top [] [].

(** [this.userCtx.op(...)]. *)
Definition onUserCtx (f : Canvas2D.Canvas -> Canvas2D.Canvas) (cm : CanvasManager)
  : CanvasManager :=
  set_userCanvas (f (userCanvas cm)) cm.

(** *** The map of remote layers, in insertion order *)

Fixpoint remoteGet (userId : string) (l : list (string * Canvas2D.Canvas))
  : option Canvas2D.Canvas :=
  match l with
  | [] => None
  | (k, c) :: l' => if decide (k = userId) then Some c else remoteGet userId l'
  end.

Fixpoint remoteAlter (f : Canvas2D.Canvas -> Canvas2D.Canvas) (userId : string)
  (l : list (string * Canvas2D.Canvas)) : list (string * Canvas2D.Canvas) :=
  match l with
  | [] => []
  | (k, c) :: l' =>
      if decide (k = userId) then (k, f c) :: l'
      else (k, c) :: remoteAlter f userId l'
  end.

Fixpoint remoteDelete (userId : string) (l : list (string * Canvas2D.Canvas))
  : list (string * Canvas2D.Canvas) :=
  match l with
  | [] => []
  | (k, c) :: l' =>
      if decide (k = userId) then l' else (k, c) :: remoteDelete userId l'
  end.

(** A mutation made through the [{ canvas, ctx }] object stored under
    [userId]. *)
Definition onRemoteCtx (userId : string) (f : Canvas2D.Canvas -> Canvas2D.Canvas)
  (cm : CanvasManager) : CanvasManager :=
  set_remoteCanvases (remoteAlter f userId (remoteCanvases cm)) cm.

Definition getOrCreateRemoteCanvas (cm : CanvasManager) (userId : string)
  : CanvasManager :=
  match remoteGet userId (remoteCanvases cm) with
  | Some _ => cm
  | None =>
      set_remoteCanvases (remoteCanvases cm ++ [(userId, Canvas2D.createCanvas)]) cm
  end.

(** The user's layer first, then every remote layer on top, in map
    order. *)
Definition composeLayers (cm : CanvasManager) : CanvasManager :=
  set_canvas
    (fold_left (fun acc e => Canvas2D.source_over (Canvas2D.bitmap e.2) acc)
       (remoteCanvases cm)
       (Canvas2D.source_over (Canvas2D.bitmap (userCanvas cm)) ∅))
    cm.

Definition getPointerPos (cm : CanvasManager) (e : PointerEvent) : Canvas2D.Point :=
  Canvas2D.mkPoint (clientX e - rectLeft cm) (clientY e - rectTop cm).

Definition emitDrawEvent (cm : CanvasManager) (type : string) (pos : Canvas2D.Point)
  : CanvasManager :=
  if onStateChange cm then
    set_emitted
      (emitted cm
       ++ [Wire.mkData type (Some pos) (mode cm) (strokeColor cm) (lineWidth cm)
             None None])
      cm
  else cm.

Definition warn (msg : string) (cm : CanvasManager) : CanvasManager :=
  set_console (console cm ++ [Warning msg]) cm.

Definition error (msg : string) (cm : CanvasManager) : CanvasManager :=
  set_console (console cm ++ [Failure msg]) cm.

(** *** History *)

Definition pushUndo (cm : CanvasManager) : CanvasManager :=
  let cm :=
    if (MAX_STACK <=? length (undoStack cm))%nat
    then set_undoStack (shift (undoStack cm)) cm else cm in
  set_undoStack (push (undoStack cm) (Canvas2D.toDataURL (userCanvas cm))) cm.

Definition applyDataUrl (cm : CanvasManager) (dataUrl : Canvas2D.DataUrl)
  : Promise unit * CanvasManager :=
  match Canvas2D.loadImage dataUrl with
  | Some img =>
      let cm := onUserCtx Canvas2D.clearRect cm in
      let cm := onUserCtx (Canvas2D.set_globalCompositeOperation Canvas2D.SourceOver) cm in
      let cm := onUserCtx (Canvas2D.drawImage img) cm in
      (Resolved tt, composeLayers cm)
  | None =>
      (Rejected "Failed to load image", error "Failed to apply canvas data" cm)
  end.

(** [pop] on an empty array yields [undefined], which [img.src] turns into
    the string ["undefined"]. *)
Definition popUrl (l : list Canvas2D.DataUrl) : Canvas2D.DataUrl * list Canvas2D.DataUrl :=
  (default (Canvas2D.NotAnImage "undefined") (pop l).1, (pop l).2).

Definition undo (cm : CanvasManager) : Promise bool * CanvasManager :=
  if (length (undoStack cm) =? 0)%nat then (Resolved false, cm)
  else
    let cm := set_redoStack (push (redoStack cm) (Canvas2D.toDataURL (userCanvas cm))) cm in
    let dataUrl := (popUrl (undoStack cm)).1 in
    let cm := set_undoStack (popUrl (undoStack cm)).2 cm in
    let r := applyDataUrl cm dataUrl in
    (then_ r.1 (fun _ => true), r.2).

Definition redo (cm : CanvasManager) : Promise bool * CanvasManager :=
  if (length (redoStack cm) =? 0)%nat then (Resolved false, cm)
  else
    let cm := set_undoStack (push (undoStack cm) (Canvas2D.toDataURL (userCanvas cm))) cm in
    let dataUrl := (popUrl (redoStack cm)).1 in
    let cm := set_redoStack (popUrl (redoStack cm)).2 cm in
    let r := applyDataUrl cm dataUrl in
    (then_ r.1 (fun _ => true), r.2).

Definition clear (cm : CanvasManager) : CanvasManager :=
  let cm := pushUndo cm in
  let cm := onUserCtx Canvas2D.clearRect cm in
  let cm := set_redoStack [] cm in
  composeLayers cm.

Definition getCanvasData (cm : CanvasManager) : Canvas2D.DataUrl :=
  Canvas2D.toDataURL (userCanvas cm).

(** The promise returned by [applyDataUrl] is dropped. *)
Definition loadCanvasData (cm : CanvasManager) (dataUrl : Canvas2D.DataUrl)
  : CanvasManager :=
  (applyDataUrl cm dataUrl).2.

(** *** Tool settings *)

Definition setMode (cm : CanvasManager) (m : string) : CanvasManager := set_mode m cm.
Definition setColor (cm : CanvasManager) (c : string) : CanvasManager := set_strokeColor c cm.
Definition setLineWidth (cm : CanvasManager) (w : Z) : CanvasManager := set_lineWidth w cm.

(** *** Local pointer input *)

Definition handlePointerDown (cm : CanvasManager) (e : PointerEvent) : CanvasManager :=
  if match button e with Some b => negb (b =? 0) | None => false end then cm
  else
    let cm := pushUndo cm in
    let cm := set_drawing true cm in
    let cm := set_lastPos (getPointerPos cm e) cm in
    let cm := onUserCtx (Canvas2D.set_lineCap Canvas2D.CapRound) cm in
    let cm := onUserCtx (Canvas2D.set_lineJoin Canvas2D.JoinRound) cm in
    let cm := onUserCtx (Canvas2D.set_lineWidth (lineWidth cm)) cm in
    let cm :=
      if decide (mode cm = "eraser") then
        let cm := onUserCtx (Canvas2D.set_globalCompositeOperation Canvas2D.DestinationOut) cm in
        onUserCtx (Canvas2D.set_strokeStyle "rgba(0,0,0,1)") cm
      else
        let cm := onUserCtx (Canvas2D.set_globalCompositeOperation Canvas2D.SourceOver) cm in
        onUserCtx (Canvas2D.set_strokeStyle (strokeColor cm)) cm in
    let cm := onUserCtx Canvas2D.beginPath cm in
    let cm := onUserCtx (Canvas2D.moveTo (lastPos cm)) cm in
    emitDrawEvent cm "start" (lastPos cm).

Definition handlePointerUp (cm : CanvasManager) (e : PointerEvent) : CanvasManager :=
  if negb (drawing cm) then cm
  else
    let cm := set_drawing false cm in
    let cm := onUserCtx Canvas2D.closePath cm in
    let cm := set_redoStack [] cm in
    let cm := emitDrawEvent cm "end" (lastPos cm) in
    composeLayers cm.

(** *** Clearing and replacing remote layers *)

Definition clearRemoteCanvas (cm : CanvasManager) (userId : option string)
  : CanvasManager :=
  match userId with
  | None => warn "clearRemoteCanvas called without userId" cm
  | Some u =>
      if negb (Canvas2D.nonempty u) then warn "clearRemoteCanvas called without userId" cm
      else
        match remoteGet u (remoteCanvases cm) with
        | Some _ => composeLayers (onRemoteCtx u Canvas2D.clearRect cm)
        | None => cm
        end
  end.

Definition removeRemoteUser (cm : CanvasManager) (userId : string) : CanvasManager :=
  match remoteGet userId (remoteCanvases cm) with
  | Some _ => composeLayers (set_remoteCanvases (remoteDelete userId (remoteCanvases cm)) cm)
  | None => cm
  end.

Definition updateRemoteCanvas (cm : CanvasManager) (userId : option string)
  (dataUrl : option Canvas2D.DataUrl) : CanvasManager :=
  match userId, dataUrl with
  | Some u, Some d =>
      if negb (Canvas2D.nonempty u && Canvas2D.truthyUrl d)
      then warn "updateRemoteCanvas called with invalid parameters" cm
      else
        let cm := getOrCreateRemoteCanvas cm u in
        match Canvas2D.loadImage d with
        | Some img =>
            let cm := onRemoteCtx u Canvas2D.clearRect cm in
            let cm := onRemoteCtx u (Canvas2D.set_globalCompositeOperation Canvas2D.SourceOver) cm in
            let cm := onRemoteCtx u (Canvas2D.drawImage img) cm in
            composeLayers cm
        | None => error "Failed to load image for remote canvas update" cm
        end
  | _, _ => warn "updateRemoteCanvas called with invalid parameters" cm
  end.

(** *** Strokes: the only operations that rasterize *)

Section Drawing.
Context `{!Canvas2D.Rasterizer}.

Definition handlePointerMove (cm : CanvasManager) (e : PointerEvent) : CanvasManager :=
  if negb (drawing cm) then cm
  else
    let pos := getPointerPos cm e in
    let cm := onUserCtx (Canvas2D.lineTo pos) cm in
    let cm := onUserCtx Canvas2D.stroke cm in
    let cm := set_lastPos pos cm in
    let cm := composeLayers cm in
    emitDrawEvent cm "move" pos.

(** Reading [pos.x] throws a [TypeError] when [pos] is missing; what was
    done before that point stays done. *)
Definition applyRemoteDrawing (cm : CanvasManager) (drawData : Wire.Data)
  : Completion CanvasManager :=
  match Wire.truthyId drawData with
  | None => Normal (warn "Drawing data missing userId" cm)
  | Some userId =>
      let cm := getOrCreateRemoteCanvas cm userId in
      let cm := onRemoteCtx userId (Canvas2D.set_lineCap Canvas2D.CapRound) cm in
      let cm := onRemoteCtx userId (Canvas2D.set_lineJoin Canvas2D.JoinRound) cm in
      let cm := onRemoteCtx userId (Canvas2D.set_lineWidth (Wire.width drawData)) cm in
      let cm :=
        if decide (Wire.mode drawData = "eraser") then
          let cm := onRemoteCtx userId
                      (Canvas2D.set_globalCompositeOperation Canvas2D.DestinationOut) cm in
          onRemoteCtx userId (Canvas2D.set_strokeStyle "rgba(0,0,0,1)") cm
        else
          let cm := onRemoteCtx userId
                      (Canvas2D.set_globalCompositeOperation Canvas2D.SourceOver) cm in
          onRemoteCtx userId (Canvas2D.set_strokeStyle (Wire.color drawData)) cm in
      if decide (Wire.type drawData = "start") then
        let cm := onRemoteCtx userId Canvas2D.beginPath cm in
        match Wire.pos drawData with
        | None => Throw "TypeError" cm
        | Some pos => Normal (onRemoteCtx userId (Canvas2D.moveTo pos) cm)
        end
      else if decide (Wire.type drawData = "move") then
        match Wire.pos drawData with
        | None => Throw "TypeError" cm
        | Some pos =>
            let cm := onRemoteCtx userId (Canvas2D.lineTo pos) cm in
            let cm := onRemoteCtx userId Canvas2D.stroke cm in
            Normal (composeLayers cm)
        end
      else if decide (Wire.type drawData = "end") then
        let cm := onRemoteCtx userId Canvas2D.closePath cm in
        Normal (composeLayers cm)
      else Normal cm
  end.

End Drawing.

(** ** WebSocketClient: what is sent, and who the client is *)

Module WebSocketClient.

(** The client after [connect]: [sent] lists the [socket.emit] calls,
    oldest first, as event name and payload. *)
Record t := mk {
  userId : string;
  connected : bool;
  sent : list (string * Wire.Data)
}.

Definition emit (ws : t) (event : string) (payload : Wire.Data) : t :=
  mk (userId ws) (connected ws) (sent ws ++ [(event, payload)]).

Definition envelope (ws : t) (canvasData : option Canvas2D.DataUrl) : Wire.Data :=
  Wire.mkData "" None "" "" 0 (Some (userId ws)) canvasData.

Definition clearCanvas (ws : t) : t :=
  if negb (connected ws) then ws else emit ws "clear-canvas" (envelope ws None).

Definition sendUndo (ws : t) (canvasData : Canvas2D.DataUrl) : t :=
  if negb (connected ws) then ws else emit ws "undo" (envelope ws (Some canvasData)).

Definition sendRedo (ws : t) (canvasData : Canvas2D.DataUrl) : t :=
  if negb (connected ws) then ws else emit ws "redo" (envelope ws (Some canvasData)).

(** [{ roomId, userId: this.userId, ...drawData }]: a [userId] that
    [drawData] had of its own would win.  [roomId], which only the relay
    reads, is not represented. *)
Definition sendDrawing (ws : t) (drawData : Wire.Data) : t :=
  if negb (connected ws) then ws
  else
    emit ws "drawing"
      (Wire.mkData (Wire.type drawData) (Wire.pos drawData) (Wire.mode drawData)
         (Wire.color drawData) (Wire.width drawData)
         (match Wire.userId drawData with
          | Some u => Some u
          | None => Some (userId ws)
          end)
         (Wire.canvasData drawData)).

(** [data.userId !== this.userId]. *)
Definition notSelf (ws : t) (data : Wire.Data) : bool :=
  negb (bool_decide (Wire.userId data = Some (userId ws))).

End WebSocketClient.

(** ** CollaborativeCanvasApp: the handlers it installs *)

Module App.

Record t := mk {
  userId : string;
  canvasManager : CanvasManager;
  wsClient : WebSocketClient.t
}.

Definition set_canvasManager (cm : CanvasManager) (app : t) : t :=
  mk (userId app) cm (wsClient app).
Definition set_wsClient (ws : WebSocketClient.t) (app : t) : t :=
  mk (userId app) (canvasManager app) ws.

(** *** Toolbar and keyboard actions *)

(** The [async] click handler of the undo button; [Rejected] is the
    unhandled rejection of an awaited promise. *)
Definition undoClick (app : t) : Promise unit * t :=
  let r := undo (canvasManager app) in
  let app := set_canvasManager r.2 app in
  match r.1 with
  | Resolved true =>
      (Resolved tt,
       set_wsClient
         (WebSocketClient.sendUndo (wsClient app) (getCanvasData (canvasManager app)))
         app)
  | Resolved false => (Resolved tt, app)
  | Rejected e => (Rejected e, app)
  end.

Definition redoClick (app : t) : Promise unit * t :=
  let r := redo (canvasManager app) in
  let app := set_canvasManager r.2 app in
  match r.1 with
  | Resolved true =>
      (Resolved tt,
       set_wsClient
         (WebSocketClient.sendRedo (wsClient app) (getCanvasData (canvasManager app)))
         app)
  | Resolved false => (Resolved tt, app)
  | Rejected e => (Rejected e, app)
  end.

Definition clearClick (app : t) : t :=
  let app := set_canvasManager (clear (canvasManager app)) app in
  set_wsClient (WebSocketClient.clearCanvas (wsClient app)) app.

(** *** Callbacks given to the socket client *)

Definition onCanvasState (app : t) (data : Wire.Data) : t :=
  match Wire.truthyData data with
  | Some canvasData =>
      set_canvasManager (loadCanvasData (canvasManager app) canvasData) app
  | None => app
  end.

Definition onClearCanvas (app : t) (data : Wire.Data) : t :=
  if negb (bool_decide (Wire.userId data = Some (userId app)))
  then set_canvasManager (clearRemoteCanvas (canvasManager app) (Wire.userId data)) app
  else app.

(** [onUndo] and [onRedo] have the same body. *)
Definition onUndo (app : t) (data : Wire.Data) : t :=
  match Wire.truthyData data, Wire.truthyId data with
  | Some _, Some _ =>
      set_canvasManager
        (updateRemoteCanvas (canvasManager app) (Wire.userId data) (Wire.canvasData data))
        app
  | _, _ => app
  end.

Definition onRedo (app : t) (data : Wire.Data) : t := onUndo app data.

Definition onUserLeave (app : t) (data : Wire.Data) : t :=
  match Wire.userId data with
  | Some u => set_canvasManager (removeRemoteUser (canvasManager app) u) app
  | None => app
  end.

(** *** The socket listeners of [setupSocketListeners] *)

Definition socketCanvasState (app : t) (data : Wire.Data) : t :=
  onCanvasState app data.

Definition socketClearCanvas (app : t) (data : Wire.Data) : t :=
  onClearCanvas app data.

Definition socketUndo (app : t) (data : Wire.Data) : t :=
  if WebSocketClient.notSelf (wsClient app) data then onUndo app data else app.

Definition socketRedo (app : t) (data : Wire.Data) : t :=
  if WebSocketClient.notSelf (wsClient app) data then onRedo app data else app.

Definition socketUserLeft (app : t) (data : Wire.Data) : t :=
  onUserLeave app data.

Section Drawing.
Context `{!Canvas2D.Rasterizer}.

Definition onDrawing (app : t) (drawData : Wire.Data) : Completion t :=
  match applyRemoteDrawing (canvasManager app) drawData with
  | Normal cm => Normal (set_canvasManager cm app)
  | Throw err cm => Throw err (set_canvasManager cm app)
  end.

Definition socketDrawing (app : t) (data : Wire.Data) : Completion t :=
  if WebSocketClient.notSelf (wsClient app) data then onDrawing app data
  else Normal app.

End Drawing.

(** *** Local pointer input, with the listener of [setupUI] *)

(** The [onStateChange] listener hands every ['draw'] payload to
    [sendDrawing].  [before] is the manager as it was when the handler
    started: what it has emitted since is what the listener was called
    with. *)
Definition forwardDraw (before : CanvasManager) (app : t) : t :=
  set_wsClient
    (fold_left WebSocketClient.sendDrawing
       (drop (length (emitted before)) (emitted (canvasManager app)))
       (wsClient app))
    app.

Definition pointerDown (app : t) (e : PointerEvent) : t :=
  forwardDraw (canvasManager app)
    (set_canvasManager (handlePointerDown (canvasManager app) e) app).

Definition pointerUp (app : t) (e : PointerEvent) : t :=
  forwardDraw (canvasManager app)
    (set_canvasManager (handlePointerUp (canvasManager app) e) app).

Section Pointer.
Context `{!Canvas2D.Rasterizer}.

Definition pointerMove (app : t) (e : PointerEvent) : t :=
  forwardDraw (canvasManager app)
    (set_canvasManager (handlePointerMove (canvasManager app) e) app).

End Pointer.

End App.

(** ** Complete local actions *)

(** A stroke gesture: pointer down, the moves, pointer up (or cancel). *)
Record Gesture := mkGesture {
  down : PointerEvent;
  moves : list PointerEvent;
  up : PointerEvent
}.

(** The guard at the top of [handlePointerDown] lets the event through. *)
Definition isPrimary (e : PointerEvent) : bool :=
  match button e with Some b => b =? 0 | None => true end.

Section Gestures.
Context `{!Canvas2D.Rasterizer}.

Definition drawGesture (cm : CanvasManager) (g : Gesture) : CanvasManager :=
  handlePointerUp (fold_left handlePointerMove (moves g) (handlePointerDown cm (down g)))
    (up g).

End Gestures.

(** ** Views of the layer store used in the statements *)

Inductive Author :=
| LocalUser
| RemoteUser (userId : string).

#[export] Instance Author_eq_dec : EqDecision Author.
Proof. solve_decision. Defined.

Definition tagRemote (e : string * Canvas2D.Canvas) : Author * gmap (Z * Z) string :=
  (RemoteUser e.1, Canvas2D.bitmap e.2).

(** The layers from the top of the composition down to the user's own. *)
Definition layersTopDown (cm : CanvasManager) : list (Author * gmap (Z * Z) string) :=
  rev (map tagRemote (remoteCanvases cm))
  ++ [(LocalUser, Canvas2D.bitmap (userCanvas cm))].

Fixpoint topAt (p : Z * Z) (ls : list (Author * gmap (Z * Z) string))
  : option (Author * string) :=
  match ls with
  | [] => None
  | (a, bm) :: ls' =>
      match bm !! p with
      | Some col => Some (a, col)
      | None => topAt p ls'
      end
  end.

(** Whose paint, and which, a composition of the current layers shows at
    pixel [p]. *)
Definition shown (cm : CanvasManager) (p : Z * Z) : option (Author * string) :=
  topAt p (layersTopDown cm).

(** The bitmap of a remote author's layer; transparent when the author has
    no layer yet. *)
Definition remoteBitmap (cm : CanvasManager) (userId : string) : gmap (Z * Z) string :=
  from_option Canvas2D.bitmap ∅ (remoteGet userId (remoteCanvases cm)).

(** Every entry of the two history stacks decodes. *)
Definition snapshotsOnly (cm : CanvasManager) : Prop :=
  Forall (fun u => is_Some (Canvas2D.loadImage u)) (undoStack cm)
  /\ Forall (fun u => is_Some (Canvas2D.loadImage u)) (redoStack cm).

(** ** A rasterizer and states for the examples *)

(** Covers exactly the pixels at the vertices of the path. *)
Definition vertexRasterizer : Canvas2D.Rasterizer :=
  fun _ _ _ path =>
    list_to_set
      (flat_map (fun sp => map (fun p => (Canvas2D.x p, Canvas2D.y p)) (Canvas2D.vertices sp))
         path).

Definition pointerAt (cx cy : Z) : PointerEvent := mkPointerEvent (Some 0) 1 cx cy.

(** Down at (10,10), one move to (50,10), up. *)
Definition lineGesture : Gesture :=
  mkGesture (pointerAt 10 10) [pointerAt 50 10] (pointerAt 50 10).

Definition dotGesture (n : nat) : Gesture :=
  mkGesture (pointerAt (Z.of_nat n) 0) [pointerAt (Z.of_nat n) 0] (pointerAt (Z.of_nat n) 0).

Definition oneStroke : CanvasManager :=
  @drawGesture vertexRasterizer (newCanvasManager 0 0) lineGesture.

(** A manager whose only undo entry, and only redo entry, is a string
    that is no image. *)
Definition brokenHistory : CanvasManager :=
  set_redoStack [Canvas2D.NotAnImage "data:,"]
    (set_undoStack [Canvas2D.NotAnImage "data:,"] (newCanvasManager 0 0)).

Definition brokenApp : App.t :=
  App.mk "alice" brokenHistory (WebSocketClient.mk "alice" true []).

(** Fifty strokes from a fresh manager, then: undo, pointer down, and a
    redo before the pointer is released. *)
Definition fiftyStrokes : CanvasManager :=
  fold_left (@drawGesture vertexRasterizer) (map dotGesture (seq 0 50))
    (newCanvasManager 0 0).

Definition redoMidStroke : CanvasManager :=
  (redo (handlePointerDown (undo fiftyStrokes).2 (pointerAt 7 7))).2.

(** A peer's stroke start whose [pos] is missing, and the client that
    receives it. *)
Definition startWithoutPos : Wire.Data :=
  Wire.mkData "start" None "brush" "#ff0000" 5 (Some "bob") None.

Definition aliceApp : App.t :=
  App.mk "alice" (newCanvasManager 0 0) (WebSocketClient.mk "alice" true []).

(** Two authors with overlapping strokes: the user's black line, bob's
    blue line over the same pixels; the user has then picked the
    eraser. *)
Definition bobEvent (type : string) (px py : Z) (mode : string) : Wire.Data :=
  Wire.mkData type (Some (Canvas2D.mkPoint px py)) mode "#0000ff" 5 (Some "bob") None.

Definition sharedCanvas : CanvasManager :=
  let cm := @drawGesture vertexRasterizer (newCanvasManager 0 0) lineGesture in
  let cm := stateOf (@applyRemoteDrawing vertexRasterizer cm (bobEvent "start" 10 10 "brush")) in
  let cm := stateOf (@applyRemoteDrawing vertexRasterizer cm (bobEvent "move" 50 10 "brush")) in
  setMode cm "eraser".

Definition sharedApp : App.t :=
  App.mk "alice" sharedCanvas (WebSocketClient.mk "alice" true []).

Definition bobClears : Wire.Data := Wire.mkData "" None "" "" 0 (Some "bob") None.

Definition bobSendsState : Wire.Data :=
  Wire.mkData "" None "" "" 0 (Some "bob")
    (Some (Canvas2D.PngImage {[ (3, 4) := "#0000ff" ]})).

Definition ownStroke : Wire.Data :=
  Wire.mkData "move" (Some (Canvas2D.mkPoint 50 10)) "brush" "#000000" 5 (Some "alice") None.

(** Whole actions of the local user. *)
Inductive Action :=
| Draw (g : Gesture)
| Clear
| Undo
| Redo.

Section Actions.
Context `{!Canvas2D.Rasterizer}.

Definition perform (cm : CanvasManager) (a : Action) : CanvasManager :=
  match a with
  | Draw g => drawGesture cm g
  | Clear => clear cm
  | Undo => (undo cm).2
  | Redo => (redo cm).2
  end.

End Actions.

(** ** The rest of the model: roster, store invariant, peers *)

Section AppGesture.
Context `{!Canvas2D.Rasterizer}.

(** One stroke as the application sees it: the three pointer handlers,
    each followed by the listener. *)
Definition appGesture (app : App.t) (g : Gesture) : App.t :=
  App.pointerUp (fold_left App.pointerMove (moves g) (App.pointerDown app (down g))) (up g).


End AppGesture.

(** The payload [emitDrawEvent] builds. *)
Definition drawPayload (cm : CanvasManager) (type : string) (pos : Canvas2D.Point)
  : Wire.Data :=
  Wire.mkData type (Some pos) (mode cm) (strokeColor cm) (lineWidth cm) None None.

(** The context set-up that [handlePointerDown] and [applyRemoteDrawing]
    both start with: round caps and joins, the width, and the composite
    operation and stroke style of the mode. *)
Definition styleCtx (mode color : string) (width : Z) (c : Canvas2D.Canvas)
  : Canvas2D.Canvas :=
  Canvas2D.set_strokeStyle (if decide (mode = "eraser") then "rgba(0,0,0,1)" else color)
    (Canvas2D.set_globalCompositeOperation
       (if decide (mode = "eraser") then Canvas2D.DestinationOut else Canvas2D.SourceOver)
       (Canvas2D.set_lineWidth width
          (Canvas2D.set_lineJoin Canvas2D.JoinRound
             (Canvas2D.set_lineCap Canvas2D.CapRound c)))).

(** The tool settings and geometry a stroke is drawn and announced
    with. *)
Definition settings (cm : CanvasManager) : string * string * Z * bool * Z * Z :=
  (mode cm, strokeColor cm, lineWidth cm, onStateChange cm, rectLeft cm, rectTop cm).


(** The payloads of the [socket.emit] calls made since [before]. *)
Definition sentSince (before after : WebSocketClient.t) : list (string * Wire.Data) :=
  drop (length (WebSocketClient.sent before)) (WebSocketClient.sent after).

(** The keys of [remoteCanvases] are those of a [Map] (no key twice) and
    none is the empty string. *)
Definition storeOk (cm : CanvasManager) : Prop :=
  NoDup (map fst (remoteCanvases cm))
  /\ Forall (fun k => Canvas2D.nonempty k = true) (map fst (remoteCanvases cm)).

(** The roster [this.users] of the application: a [Map] from [userId] to
    the user's record.  Its order only matters to the panel that lists
    it, which is not represented. *)
Module Roster.

Record User := mkUser {
  userId : string;
  username : string;
  color : string
}.

(** [onUsersUpdate]: [this.users.clear()], then every user of the list
    but oneself is [set]. *)
Definition onUsersUpdate (self : string) (roster : gmap string User) (users : list User)
  : gmap string User :=
  fold_left
    (fun m user => if decide (userId user <> self) then <[userId user := user]> m else m)
    users ∅.

(** [onUserJoin]: the record is rebuilt from the three properties. *)
Definition onUserJoin (roster : gmap string User) (data : User) : gmap string User :=
  <[userId data := mkUser (userId data) (username data) (color data)]> roster.

(** The roster part of [onUserLeave]. *)
Definition onUserLeave (roster : gmap string User) (id : string) : gmap string User :=
  match roster !! id with
  | Some _ => delete id roster
  | None => roster
  end.

(** [this.users.size + 1], the count shown in notifications and in the
    panel. *)
Definition totalUsers (roster : gmap string User) : nat := size roster + 1.

End Roster.

(** Two more clients for the examples: alice with the listener attached,
    and bob. *)
Definition aliceDrawing : App.t :=
  App.mk "alice" (set_onStateChange true (newCanvasManager 0 0))
    (WebSocketClient.mk "alice" true []).

Definition bobApp : App.t :=
  App.mk "bob" (newCanvasManager 0 0) (WebSocketClient.mk "bob" true []).

Definition aliceUndoes : App.t :=
  App.mk "alice" oneStroke (WebSocketClient.mk "alice" true []).

Definition bobUndoMessage : Wire.Data :=
  Wire.mkData "" None "" "" 0 (Some "bob")
    (Some (Canvas2D.PngImage {[ (1, 2) := "#0000ff" ]})).

Definition secondaryGesture : Gesture :=
  mkGesture (mkPointerEvent (Some 2) 1 10 10) [pointerAt 50 10] (pointerAt 50 10).

(** Alice while the connection is down, and a user record. *)
Definition offlineApp : App.t :=
  App.mk "alice" (set_onStateChange true (newCanvasManager 0 0))
    (WebSocketClient.mk "alice" false []).

Definition bobUser : Roster.User := Roster.mkUser "bob" "Bob" "#0000ff".

(** ** Proof steps shared below *)

Ltac unfold_manager :=
  unfold handlePointerDown, handlePointerUp, clear, pushUndo, emitDrawEvent,
    composeLayers, onUserCtx, onRemoteCtx, warn in *.

Ltac case_guards :=
  repeat match goal with
         | |- context [if ?b then _ else _] => destruct b
         | |- context [match ?o with Some _ => _ | None => _ end] => destruct o
         end.

(** * Properties *)

(** ** Stack helpers *)

Lemma popUrl_snoc (l : list Canvas2D.DataUrl) (u : Canvas2D.DataUrl) :
  popUrl (l ++ [u]) = (u, l).
Proof.
  unfold popUrl, pop. cbn [fst snd].
  rewrite last_snoc, removelast_last. reflexivity.
Qed.

Lemma length_snoc_nonzero {A : Type} (l : list A) (a : A) :
  (length (l ++ [a]) =? 0)%nat = false.
Proof. rewrite length_app. cbn. apply Nat.eqb_neq. lia. Qed.

Lemma nonempty_snoc {A : Type} (l : list A) :
  l <> [] -> exists l' a, l = l' ++ [a].
Proof.
  intros Hne. destruct (exists_last Hne) as (l' & a & ->). eauto.
Qed.

(** ** What [applyDataUrl] does *)

Lemma applyDataUrl_image (cm : CanvasManager) (img : gmap (Z * Z) string) :
  applyDataUrl cm (Canvas2D.PngImage img)
  = (Resolved tt,
     composeLayers
       (set_userCanvas
          (Canvas2D.set_bitmap img
             (Canvas2D.set_globalCompositeOperation Canvas2D.SourceOver (userCanvas cm)))
          cm)).
Proof.
  unfold applyDataUrl, onUserCtx, Canvas2D.drawImage, Canvas2D.clearRect. cbn.
  unfold Canvas2D.source_over. rewrite (right_id_L ∅ (∪)). reflexivity.
Qed.

Lemma applyDataUrl_fault (cm : CanvasManager) (u : Canvas2D.DataUrl) :
  Canvas2D.loadImage u = None ->
  applyDataUrl cm u
  = (Rejected "Failed to load image", error "Failed to apply canvas data" cm).
Proof. intros H. unfold applyDataUrl. rewrite H. reflexivity. Qed.

(** ** Undo and redo, step by step *)

Lemma undo_empty (cm : CanvasManager) :
  undoStack cm = [] -> undo cm = (Resolved false, cm).
Proof. intros H. unfold undo. rewrite H. reflexivity. Qed.

Lemma redo_empty (cm : CanvasManager) :
  redoStack cm = [] -> redo cm = (Resolved false, cm).
Proof. intros H. unfold redo. rewrite H. reflexivity. Qed.

Lemma undo_snoc (cm : CanvasManager) (rest : list Canvas2D.DataUrl) (top : Canvas2D.DataUrl) :
  undoStack cm = rest ++ [top] ->
  undo cm
  = let cm' :=
      set_undoStack rest
        (set_redoStack (redoStack cm ++ [Canvas2D.toDataURL (userCanvas cm)]) cm) in
    (then_ (applyDataUrl cm' top).1 (fun _ => true), (applyDataUrl cm' top).2).
Proof.
  intros H. unfold undo. rewrite H, length_snoc_nonzero.
  cbn [undoStack set_redoStack]. rewrite H, popUrl_snoc. reflexivity.
Qed.

Lemma redo_snoc (cm : CanvasManager) (rest : list Canvas2D.DataUrl) (top : Canvas2D.DataUrl) :
  redoStack cm = rest ++ [top] ->
  redo cm
  = let cm' :=
      set_redoStack rest
        (set_undoStack (undoStack cm ++ [Canvas2D.toDataURL (userCanvas cm)]) cm) in
    (then_ (applyDataUrl cm' top).1 (fun _ => true), (applyDataUrl cm' top).2).
Proof.
  intros H. unfold redo. rewrite H, length_snoc_nonzero.
  cbn [redoStack set_undoStack]. rewrite H, popUrl_snoc. reflexivity.
Qed.

Lemma undo_success (cm : CanvasManager) (rest : list Canvas2D.DataUrl)
  (img : gmap (Z * Z) string) :
  undoStack cm = rest ++ [Canvas2D.PngImage img] ->
  (undo cm).1 = Resolved true
  /\ redoStack (undo cm).2 = redoStack cm ++ [Canvas2D.toDataURL (userCanvas cm)]
  /\ undoStack (undo cm).2 = rest
  /\ Canvas2D.bitmap (userCanvas (undo cm).2) = img
  /\ remoteCanvases (undo cm).2 = remoteCanvases cm.
Proof.
  intros H. rewrite (undo_snoc cm rest _ H). cbv zeta.
  rewrite applyDataUrl_image. repeat split.
Qed.

Lemma redo_success (cm : CanvasManager) (rest : list Canvas2D.DataUrl)
  (img : gmap (Z * Z) string) :
  redoStack cm = rest ++ [Canvas2D.PngImage img] ->
  (redo cm).1 = Resolved true
  /\ undoStack (redo cm).2 = undoStack cm ++ [Canvas2D.toDataURL (userCanvas cm)]
  /\ redoStack (redo cm).2 = rest
  /\ Canvas2D.bitmap (userCanvas (redo cm).2) = img
  /\ remoteCanvases (redo cm).2 = remoteCanvases cm.
Proof.
  intros H. rewrite (redo_snoc cm rest _ H). cbv zeta.
  rewrite applyDataUrl_image. repeat split.
Qed.

(** C6. [undo] on an empty [undoStack] resolves to [false] and changes
    nothing, and so does [redo] on an empty [redoStack].  Otherwise [undo]
    pushes the snapshot of the user's layer onto [redoStack], pops the top
    of [undoStack], restores it into the user's layer and resolves to
    [true]; [redo] does the same with the two stacks exchanged.  The top
    entry is a snapshot, as every entry the program pushes is. *)
Theorem undo_redo_contract (cm : CanvasManager) :
  (undoStack cm = [] -> undo cm = (Resolved false, cm))
  /\ (redoStack cm = [] -> redo cm = (Resolved false, cm))
  /\ (forall rest img,
        undoStack cm = rest ++ [Canvas2D.PngImage img] ->
        (undo cm).1 = Resolved true
        /\ redoStack (undo cm).2 = redoStack cm ++ [Canvas2D.toDataURL (userCanvas cm)]
        /\ undoStack (undo cm).2 = rest
        /\ Canvas2D.bitmap (userCanvas (undo cm).2) = img
        /\ remoteCanvases (undo cm).2 = remoteCanvases cm)
  /\ (forall rest img,
        redoStack cm = rest ++ [Canvas2D.PngImage img] ->
        (redo cm).1 = Resolved true
        /\ undoStack (redo cm).2 = undoStack cm ++ [Canvas2D.toDataURL (userCanvas cm)]
        /\ redoStack (redo cm).2 = rest
        /\ Canvas2D.bitmap (userCanvas (redo cm).2) = img
        /\ remoteCanvases (redo cm).2 = remoteCanvases cm).
Proof.
  split; [apply undo_empty |]. split; [apply redo_empty |]. split.
  - intros rest img. apply undo_success.
  - intros rest img. apply redo_success.
Qed.

(** ** Fields that local pointer input leaves alone *)

Lemma handlePointerUp_remote (cm : CanvasManager) (e : PointerEvent) :
  remoteCanvases (handlePointerUp cm e) = remoteCanvases cm.
Proof. unfold_manager. case_guards; reflexivity. Qed.

Lemma handlePointerUp_undoStack (cm : CanvasManager) (e : PointerEvent) :
  undoStack (handlePointerUp cm e) = undoStack cm.
Proof. unfold_manager. case_guards; reflexivity. Qed.

Lemma handlePointerUp_bitmap (cm : CanvasManager) (e : PointerEvent) :
  Canvas2D.bitmap (userCanvas (handlePointerUp cm e)) = Canvas2D.bitmap (userCanvas cm).
Proof.
  unfold_manager. unfold Canvas2D.closePath. case_guards; reflexivity.
Qed.

Lemma handlePointerUp_drawing (cm : CanvasManager) (e : PointerEvent) :
  drawing cm = true -> redoStack (handlePointerUp cm e) = [].
Proof.
  intros H. unfold_manager. rewrite H. cbn [negb]. case_guards; reflexivity.
Qed.

Lemma pushUndo_fields (cm : CanvasManager) :
  mode (pushUndo cm) = mode cm
  /\ userCanvas (pushUndo cm) = userCanvas cm
  /\ remoteCanvases (pushUndo cm) = remoteCanvases cm
  /\ redoStack (pushUndo cm) = redoStack cm
  /\ canvas (pushUndo cm) = canvas cm.
Proof.
  unfold pushUndo.
  destruct (MAX_STACK <=? length (undoStack cm))%nat; repeat split.
Qed.

Lemma pushUndo_top (cm : CanvasManager) :
  exists rest, undoStack (pushUndo cm) = rest ++ [Canvas2D.toDataURL (userCanvas cm)].
Proof.
  unfold pushUndo, push.
  destruct (MAX_STACK <=? length (undoStack cm))%nat; cbn; eauto.
Qed.

Lemma handlePointerDown_blocked (cm : CanvasManager) (e : PointerEvent) :
  isPrimary e = false -> handlePointerDown cm e = cm.
Proof.
  unfold isPrimary, handlePointerDown. intros H.
  destruct (button e); [rewrite H; reflexivity | discriminate].
Qed.

Lemma handlePointerDown_primary (cm : CanvasManager) (e : PointerEvent) :
  isPrimary e = true ->
  drawing (handlePointerDown cm e) = true
  /\ undoStack (handlePointerDown cm e) = undoStack (pushUndo cm)
  /\ redoStack (handlePointerDown cm e) = redoStack cm
  /\ remoteCanvases (handlePointerDown cm e) = remoteCanvases cm.
Proof.
  unfold isPrimary. intros H. unfold handlePointerDown.
  assert (match button e with Some b => negb (b =? 0) | None => false end = false) as ->.
  { destruct (button e); [rewrite H |]; reflexivity. }
  destruct (pushUndo_fields cm) as (_ & _ & Hrem & Hredo & _).
  set (cm0 := pushUndo cm) in *. clearbody cm0.
  unfold emitDrawEvent, onUserCtx. cbv zeta.
  case_guards; cbn; auto.
Qed.

Lemma handlePointerDown_remote (cm : CanvasManager) (e : PointerEvent) :
  remoteCanvases (handlePointerDown cm e) = remoteCanvases cm.
Proof.
  destruct (isPrimary e) eqn:Hp.
  - apply handlePointerDown_primary, Hp.
  - rewrite handlePointerDown_blocked by exact Hp. reflexivity.
Qed.

Section LocalStrokes.
Context `{!Canvas2D.Rasterizer}.

Lemma handlePointerMove_remote (cm : CanvasManager) (e : PointerEvent) :
  remoteCanvases (handlePointerMove cm e) = remoteCanvases cm.
Proof. unfold handlePointerMove. unfold_manager. case_guards; reflexivity. Qed.

Lemma handlePointerMove_history (cm : CanvasManager) (e : PointerEvent) :
  undoStack (handlePointerMove cm e) = undoStack cm
  /\ redoStack (handlePointerMove cm e) = redoStack cm
  /\ drawing (handlePointerMove cm e) = drawing cm.
Proof.
  unfold handlePointerMove. unfold_manager.
  destruct (drawing cm) eqn:Hd; cbn [negb]; [| auto].
  case_guards; auto.
Qed.

Lemma moves_history (es : list PointerEvent) (cm : CanvasManager) :
  undoStack (fold_left handlePointerMove es cm) = undoStack cm
  /\ redoStack (fold_left handlePointerMove es cm) = redoStack cm
  /\ drawing (fold_left handlePointerMove es cm) = drawing cm.
Proof.
  revert cm. induction es as [| e es IH]; intros cm; cbn [fold_left]; [auto |].
  destruct (IH (handlePointerMove cm e)) as (-> & -> & ->).
  apply handlePointerMove_history.
Qed.

Lemma moves_remote (es : list PointerEvent) (cm : CanvasManager) :
  remoteCanvases (fold_left handlePointerMove es cm) = remoteCanvases cm.
Proof.
  revert cm. induction es as [| e es IH]; intros cm; cbn [fold_left]; [reflexivity |].
  rewrite IH. apply handlePointerMove_remote.
Qed.

(** A completed gesture leaves a snapshot on top of [undoStack] and an
    empty [redoStack]. *)
Lemma drawGesture_history (cm : CanvasManager) (g : Gesture) :
  isPrimary (down g) = true ->
  (exists rest img, undoStack (drawGesture cm g) = rest ++ [Canvas2D.PngImage img])
  /\ redoStack (drawGesture cm g) = []
  /\ drawing (drawGesture cm g) = false.
Proof.
  intros Hp. unfold drawGesture.
  destruct (handlePointerDown_primary cm (down g) Hp) as (Hd & Hu & _ & _).
  destruct (moves_history (moves g) (handlePointerDown cm (down g))) as (Hu' & _ & Hd').
  rewrite Hd in Hd'. split; [| split].
  - rewrite handlePointerUp_undoStack, Hu', Hu.
    destruct (pushUndo_top cm) as [rest ->]. unfold Canvas2D.toDataURL. eauto.
  - apply handlePointerUp_drawing, Hd'.
  - unfold handlePointerUp. rewrite Hd'. cbn [negb].
    unfold emitDrawEvent. case_guards; reflexivity.
Qed.

End LocalStrokes.

(** ** Round trip *)

Lemma undo_then_redo (cm : CanvasManager) (rest : list Canvas2D.DataUrl)
  (img : gmap (Z * Z) string) :
  undoStack cm = rest ++ [Canvas2D.PngImage img] ->
  (undo cm).1 = Resolved true
  /\ (redo (undo cm).2).1 = Resolved true
  /\ Canvas2D.bitmap (userCanvas (redo (undo cm).2).2) = Canvas2D.bitmap (userCanvas cm)
  /\ undoStack (redo (undo cm).2).2 = undoStack cm
  /\ redoStack (redo (undo cm).2).2 = redoStack cm
  /\ remoteCanvases (redo (undo cm).2).2 = remoteCanvases cm.
Proof.
  intros H. rewrite (undo_snoc cm rest _ H). cbv zeta.
  rewrite applyDataUrl_image. cbn [fst snd then_].
  split; [reflexivity |].
  match goal with |- context [redo ?c] => set (cm2 := c) end.
  assert (redoStack cm2
          = redoStack cm ++ [Canvas2D.PngImage (Canvas2D.bitmap (userCanvas cm))]) as Hr
    by reflexivity.
  rewrite (redo_snoc cm2 _ _ Hr). cbv zeta.
  rewrite applyDataUrl_image. cbn. rewrite H. repeat split.
Qed.

Section RoundTrip.
Context `{!Canvas2D.Rasterizer}.

(** C2. After any sequence of local stroke gestures, [undo] followed by
    [redo] both succeed and leave the user's layer with exactly the
    pixels it had before the [undo]; the two history stacks are back to
    what they were as well. *)
Theorem undo_redo_round_trip (cm : CanvasManager) (gs : list Gesture) (g : Gesture) :
  isPrimary (down g) = true ->
  let cm1 := drawGesture (fold_left drawGesture gs cm) g in
  (undo cm1).1 = Resolved true
  /\ (redo (undo cm1).2).1 = Resolved true
  /\ Canvas2D.bitmap (userCanvas (redo (undo cm1).2).2) = Canvas2D.bitmap (userCanvas cm1)
  /\ undoStack (redo (undo cm1).2).2 = undoStack cm1
  /\ redoStack (redo (undo cm1).2).2 = redoStack cm1.
Proof.
  intros Hp cm1.
  destruct (drawGesture_history (fold_left drawGesture gs cm) g Hp) as ((rest & img & Hu) & _).
  destruct (undo_then_redo cm1 rest img Hu) as (H1 & H2 & H3 & H4 & H5 & _).
  auto.
Qed.

End RoundTrip.

(** ** Redo history and new actions *)

Lemma clear_history (cm : CanvasManager) :
  redoStack (clear cm) = []
  /\ exists rest, undoStack (clear cm) = rest ++ [Canvas2D.toDataURL (userCanvas cm)].
Proof.
  split; [reflexivity |].
  destruct (pushUndo_top cm) as [rest H]. exists rest. exact H.
Qed.

Section RedoInvalidation.
Context `{!Canvas2D.Rasterizer}.

(** C5. Completing a stroke gesture empties [redoStack]: in
    draw; undo; draw; redo the undo succeeds and leaves one entry to
    redo, the second draw removes it, and the final [redo] resolves to
    [false] without changing anything.  [clear] empties [redoStack] too.
    An [undo] followed by [redo] leaves [redoStack] as it was. *)
Theorem new_draw_invalidates_redo (cm : CanvasManager) (g1 g2 : Gesture) :
  isPrimary (down g1) = true ->
  isPrimary (down g2) = true ->
  let cm1 := drawGesture cm g1 in
  let cm2 := (undo cm1).2 in
  let cm3 := drawGesture cm2 g2 in
  ((undo cm1).1 = Resolved true
   /\ redoStack cm2 = [Canvas2D.toDataURL (userCanvas cm1)]
   /\ redoStack cm3 = []
   /\ redo cm3 = (Resolved false, cm3))
  /\ redo (clear cm2) = (Resolved false, clear cm2)
  /\ (forall c rest img,
        undoStack c = rest ++ [Canvas2D.PngImage img] ->
        redoStack (undo c).2 = redoStack c ++ [Canvas2D.toDataURL (userCanvas c)]
        /\ redoStack (redo (undo c).2).2 = redoStack c).
Proof.
  intros Hp1 Hp2 cm1 cm2 cm3.
  destruct (drawGesture_history cm g1 Hp1) as ((rest & img & Hu) & Hr & _).
  fold cm1 in Hu, Hr.
  destruct (undo_redo_contract cm1) as (_ & _ & Hundo & _).
  destruct (Hundo rest img Hu) as (Hres & Hredo & _).
  destruct (drawGesture_history cm2 g2 Hp2) as (_ & Hr3 & _). fold cm3 in Hr3.
  split; [| split].
  - repeat split; [exact Hres | | exact Hr3 | apply redo_empty, Hr3].
    unfold cm2. rewrite Hredo, Hr. reflexivity.
  - apply redo_empty, clear_history.
  - intros c rest' img' Hc.
    destruct (undo_redo_contract c) as (_ & _ & Hundo' & _).
    destruct (Hundo' rest' img' Hc) as (_ & Hredo' & _).
    destruct (undo_then_redo c rest' img' Hc) as (_ & _ & _ & _ & Hsame & _).
    auto.
Qed.

End RedoInvalidation.

(** ** Snapshots that do not decode *)

Lemma undo_fault (cm : CanvasManager) (rest : list Canvas2D.DataUrl) (top : Canvas2D.DataUrl) :
  undoStack cm = rest ++ [top] ->
  Canvas2D.loadImage top = None ->
  undo cm
  = (Rejected "Failed to load image",
     error "Failed to apply canvas data"
       (set_undoStack rest
          (set_redoStack (redoStack cm ++ [Canvas2D.toDataURL (userCanvas cm)]) cm))).
Proof.
  intros H Hl. rewrite (undo_snoc cm rest top H). cbv zeta.
  rewrite (applyDataUrl_fault _ top Hl). reflexivity.
Qed.

Lemma redo_fault (cm : CanvasManager) (rest : list Canvas2D.DataUrl) (top : Canvas2D.DataUrl) :
  redoStack cm = rest ++ [top] ->
  Canvas2D.loadImage top = None ->
  redo cm
  = (Rejected "Failed to load image",
     error "Failed to apply canvas data"
       (set_redoStack rest
          (set_undoStack (undoStack cm ++ [Canvas2D.toDataURL (userCanvas cm)]) cm))).
Proof.
  intros H Hl. rewrite (redo_snoc cm rest top H). cbv zeta.
  rewrite (applyDataUrl_fault _ top Hl). reflexivity.
Qed.

(** The history has moved all the same: the entry that failed to decode is
    gone from its stack and the current snapshot sits on the other one. *)
Lemma undo_fault_history (cm : CanvasManager) (rest : list Canvas2D.DataUrl)
  (top : Canvas2D.DataUrl) :
  undoStack cm = rest ++ [top] ->
  Canvas2D.loadImage top = None ->
  undoStack (undo cm).2 = rest
  /\ redoStack (undo cm).2 = redoStack cm ++ [Canvas2D.toDataURL (userCanvas cm)].
Proof. intros H Hl. rewrite (undo_fault cm rest top H Hl). split; reflexivity. Qed.

(** C3, as the code has it.  When the popped snapshot does not decode,
    [undo] and [redo] leave every layer and the composed picture as they
    were, and the promise they return is rejected with an error: it
    resolves neither to [true] nor to [false].  The click handler that
    awaits it is rejected in turn and sends nothing. *)
Theorem decode_fault_rejects (app : App.t) (rest : list Canvas2D.DataUrl)
  (top : Canvas2D.DataUrl) :
  Canvas2D.loadImage top = None ->
  let cm := App.canvasManager app in
  (undoStack cm = rest ++ [top] ->
   (undo cm).1 = Rejected "Failed to load image"
   /\ userCanvas (undo cm).2 = userCanvas cm
   /\ remoteCanvases (undo cm).2 = remoteCanvases cm
   /\ canvas (undo cm).2 = canvas cm
   /\ (App.undoClick app).1 = Rejected "Failed to load image"
   /\ App.wsClient (App.undoClick app).2 = App.wsClient app)
  /\ (redoStack cm = rest ++ [top] ->
      (redo cm).1 = Rejected "Failed to load image"
      /\ userCanvas (redo cm).2 = userCanvas cm
      /\ remoteCanvases (redo cm).2 = remoteCanvases cm
      /\ canvas (redo cm).2 = canvas cm
      /\ (App.redoClick app).1 = Rejected "Failed to load image"
      /\ App.wsClient (App.redoClick app).2 = App.wsClient app).
Proof.
  intros Hl cm. split; intros H.
  - unfold App.undoClick. fold cm. rewrite (undo_fault cm rest top H Hl).
    repeat split.
  - unfold App.redoClick. fold cm. rewrite (redo_fault cm rest top H Hl).
    repeat split.
Qed.

(** ** Inbound canvas state *)

(** C10. An inbound canvas-state event that carries a decodable snapshot
    is drawn into the user's own layer, whose pixels become exactly the
    snapshot's; no remote layer, the sender's included, is created or
    changed, and the history stacks are not touched. *)
Theorem canvas_state_overwrites_own_layer (app : App.t) (data : Wire.Data)
  (img : gmap (Z * Z) string) :
  Wire.canvasData data = Some (Canvas2D.PngImage img) ->
  let cm := App.canvasManager app in
  let cm' := App.canvasManager (App.socketCanvasState app data) in
  Canvas2D.bitmap (userCanvas cm') = img
  /\ remoteCanvases cm' = remoteCanvases cm
  /\ undoStack cm' = undoStack cm
  /\ redoStack cm' = redoStack cm.
Proof.
  intros H cm cm'. subst cm'.
  unfold App.socketCanvasState, App.onCanvasState, Wire.truthyData.
  rewrite H. cbn [Canvas2D.truthyUrl App.canvasManager App.set_canvasManager].
  unfold loadCanvasData. rewrite applyDataUrl_image. repeat split.
Qed.

Section Loopback.
Context `{!Canvas2D.Rasterizer}.

(** C7. A drawing event whose [userId] is the client's own is skipped
    by the socket listener: the application state, and with it every
    layer, is exactly what it was. *)
Theorem loopback_suppressed (app : App.t) (data : Wire.Data) :
  Wire.userId data = Some (WebSocketClient.userId (App.wsClient app)) ->
  App.socketDrawing app data = Normal app.
Proof.
  intros Hself. unfold App.socketDrawing, WebSocketClient.notSelf.
  rewrite bool_decide_eq_true_2 by exact Hself. reflexivity.
Qed.

End Loopback.

(** ** The map of remote layers *)

Lemma remoteGet_alter_eq (f : Canvas2D.Canvas -> Canvas2D.Canvas) (u : string)
  (l : list (string * Canvas2D.Canvas)) :
  remoteGet u (remoteAlter f u l) = f <$> remoteGet u l.
Proof.
  induction l as [| [k c] l IH]; [reflexivity |].
  cbn [remoteAlter remoteGet]. destruct (decide (k = u)) as [-> | Hne].
  - cbn [remoteGet]. rewrite decide_True by reflexivity. reflexivity.
  - cbn [remoteGet]. rewrite decide_False by exact Hne. exact IH.
Qed.

Lemma remoteGet_alter_ne (f : Canvas2D.Canvas -> Canvas2D.Canvas) (u v : string)
  (l : list (string * Canvas2D.Canvas)) :
  u <> v -> remoteGet v (remoteAlter f u l) = remoteGet v l.
Proof.
  intros Huv. induction l as [| [k c] l IH]; [reflexivity |].
  cbn [remoteAlter remoteGet]. destruct (decide (k = u)) as [-> | Hne].
  - cbn [remoteGet]. rewrite !decide_False by exact Huv. reflexivity.
  - cbn [remoteGet]. destruct (decide (k = v)); [reflexivity | exact IH].
Qed.

Lemma remoteAlter_fuse (f g : Canvas2D.Canvas -> Canvas2D.Canvas) (u : string)
  (l : list (string * Canvas2D.Canvas)) :
  remoteAlter f u (remoteAlter g u l) = remoteAlter (fun c => f (g c)) u l.
Proof.
  induction l as [| [k c] l IH]; [reflexivity |].
  cbn [remoteAlter]. destruct (decide (k = u)) as [-> | Hne]; cbn [remoteAlter].
  - rewrite decide_True by reflexivity. reflexivity.
  - rewrite decide_False by exact Hne. rewrite IH. reflexivity.
Qed.

Lemma remoteGet_snoc (u v : string) (c : Canvas2D.Canvas)
  (l : list (string * Canvas2D.Canvas)) :
  remoteGet v (l ++ [(u, c)])
  = match remoteGet v l with
    | Some c' => Some c'
    | None => if decide (u = v) then Some c else None
    end.
Proof.
  induction l as [| [k c'] l IH]; [reflexivity |].
  cbn [app remoteGet]. destruct (decide (k = v)); [reflexivity | exact IH].
Qed.

Lemma onRemoteCtx_fuse (f g : Canvas2D.Canvas -> Canvas2D.Canvas) (u : string)
  (cm : CanvasManager) :
  onRemoteCtx u f (onRemoteCtx u g cm) = onRemoteCtx u (fun c => f (g c)) cm.
Proof.
  unfold onRemoteCtx. cbn. rewrite remoteAlter_fuse. reflexivity.
Qed.

Lemma getOrCreate_get (cm : CanvasManager) (u : string) :
  remoteGet u (remoteCanvases (getOrCreateRemoteCanvas cm u))
  = Some (default Canvas2D.createCanvas (remoteGet u (remoteCanvases cm))).
Proof.
  unfold getOrCreateRemoteCanvas.
  destruct (remoteGet u (remoteCanvases cm)) as [c |] eqn:Hg; cbn.
  - exact Hg.
  - rewrite remoteGet_snoc, Hg, decide_True by reflexivity. reflexivity.
Qed.

Lemma getOrCreate_other (cm : CanvasManager) (u v : string) :
  u <> v ->
  remoteGet v (remoteCanvases (getOrCreateRemoteCanvas cm u))
  = remoteGet v (remoteCanvases cm).
Proof.
  intros Huv. unfold getOrCreateRemoteCanvas.
  destruct (remoteGet u (remoteCanvases cm)); cbn; [reflexivity |].
  rewrite remoteGet_snoc, decide_False by exact Huv.
  destruct (remoteGet v (remoteCanvases cm)); reflexivity.
Qed.

(** ** What a composition shows *)

Lemma topAt_app (p : Z * Z) (l1 l2 : list (Author * gmap (Z * Z) string)) :
  topAt p (l1 ++ l2)
  = match topAt p l1 with
    | Some r => Some r
    | None => topAt p l2
    end.
Proof.
  induction l1 as [| [a bm] l1 IH]; [reflexivity |].
  cbn [app topAt]. destruct (bm !! p); [reflexivity | exact IH].
Qed.

Lemma compose_lookup (p : Z * Z) (l : list (string * Canvas2D.Canvas))
  (acc : gmap (Z * Z) string) :
  fold_left (fun acc e => Canvas2D.source_over (Canvas2D.bitmap e.2) acc) l acc !! p
  = match topAt p (rev (map tagRemote l)) with
    | Some r => Some r.2
    | None => acc !! p
    end.
Proof.
  revert acc. induction l as [| e l IH]; intros acc; [reflexivity |].
  cbn [fold_left map rev]. rewrite IH, topAt_app.
  destruct (topAt p (rev (map tagRemote l))); [reflexivity |].
  unfold Canvas2D.source_over. cbn [topAt tagRemote].
  destruct (Canvas2D.bitmap e.2 !! p) as [col |] eqn:Hb.
  - cbn. apply lookup_union_Some_l. exact Hb.
  - apply lookup_union_r. exact Hb.
Qed.

(** The visible canvas after [composeLayers] shows, at every pixel, the
    paint of the topmost layer that has any there. *)
Lemma composeLayers_shown (cm : CanvasManager) (p : Z * Z) :
  canvas (composeLayers cm) !! p = snd <$> shown cm p.
Proof.
  unfold composeLayers, shown, layersTopDown. cbn [canvas set_canvas].
  rewrite compose_lookup, topAt_app.
  destruct (topAt p (rev (map tagRemote (remoteCanvases cm)))); [reflexivity |].
  unfold Canvas2D.source_over. rewrite (right_id_L ∅ (∪)). cbn [topAt].
  destruct (Canvas2D.bitmap (userCanvas cm) !! p); reflexivity.
Qed.

Lemma shown_composeLayers (cm : CanvasManager) (p : Z * Z) :
  shown (composeLayers cm) p = shown cm p.
Proof. reflexivity. Qed.

(** A blank layer on top does not change what is shown. *)
Lemma shown_getOrCreate (cm : CanvasManager) (u : string) (p : Z * Z) :
  shown (getOrCreateRemoteCanvas cm u) p = shown cm p.
Proof.
  unfold getOrCreateRemoteCanvas.
  destruct (remoteGet u (remoteCanvases cm)); [reflexivity |].
  unfold shown, layersTopDown. cbn [remoteCanvases set_remoteCanvases userCanvas].
  rewrite map_app, rev_app_distr.
  cbn [map rev app topAt tagRemote fst snd Canvas2D.bitmap Canvas2D.createCanvas].
  rewrite lookup_empty. reflexivity.
Qed.

(** A layer that only loses paint at [p] cannot hide what another author
    shows there. *)
Lemma topAt_alter (p : Z * Z) (b : Author) (col : string) (u : string)
  (f : Canvas2D.Canvas -> Canvas2D.Canvas) :
  (forall c, Canvas2D.bitmap (f c) !! p = Canvas2D.bitmap c !! p
             \/ Canvas2D.bitmap (f c) !! p = None) ->
  b <> RemoteUser u ->
  forall (l : list (string * Canvas2D.Canvas)) (bottom : list (Author * gmap (Z * Z) string)),
    topAt p (rev (map tagRemote l) ++ bottom) = Some (b, col) ->
    topAt p (rev (map tagRemote (remoteAlter f u l)) ++ bottom) = Some (b, col).
Proof.
  intros Hf Hb l. induction l as [| [k c] l IH]; intros bottom; [trivial |].
  cbn [remoteAlter]. destruct (decide (k = u)) as [-> | Hne].
  - cbn [map rev]. rewrite <- !app_assoc, !topAt_app.
    destruct (topAt p (rev (map tagRemote l))); [trivial |].
    cbn [app topAt tagRemote fst snd].
    destruct (Hf c) as [-> | ->]; [trivial |].
    destruct (Canvas2D.bitmap c !! p); [| trivial].
    intros [= <- _]. contradiction Hb. reflexivity.
  - cbn [map rev]. rewrite <- !app_assoc. apply IH.
Qed.

Lemma shown_onRemoteCtx (cm : CanvasManager) (p : Z * Z) (b : Author) (col : string)
  (u : string) (f : Canvas2D.Canvas -> Canvas2D.Canvas) :
  (forall c, Canvas2D.bitmap (f c) !! p = Canvas2D.bitmap c !! p
             \/ Canvas2D.bitmap (f c) !! p = None) ->
  b <> RemoteUser u ->
  shown cm p = Some (b, col) ->
  shown (onRemoteCtx u f cm) p = Some (b, col).
Proof.
  intros Hf Hb. unfold shown, layersTopDown, onRemoteCtx.
  cbn [remoteCanvases set_remoteCanvases userCanvas].
  apply (topAt_alter p b col u f Hf Hb).
Qed.

(** ** An inbound clear *)

Lemma compose_cleared (u : string) (l : list (string * Canvas2D.Canvas))
  (acc : gmap (Z * Z) string) :
  fold_left (fun acc e => Canvas2D.source_over (Canvas2D.bitmap e.2) acc)
    (remoteAlter Canvas2D.clearRect u l) acc
  = fold_left (fun acc e => Canvas2D.source_over (Canvas2D.bitmap e.2) acc)
      (remoteDelete u l) acc.
Proof.
  revert acc. induction l as [| [k c] l IH]; intros acc; [reflexivity |].
  cbn [remoteAlter remoteDelete]. destruct (decide (k = u)) as [-> | Hne].
  - cbn [fold_left snd Canvas2D.clearRect Canvas2D.bitmap Canvas2D.set_bitmap].
    unfold Canvas2D.source_over at 2. rewrite (left_id_L ∅ (∪)). reflexivity.
  - cbn [fold_left]. apply IH.
Qed.

Lemma clearRect_shrinks (p : Z * Z) (c : Canvas2D.Canvas) :
  Canvas2D.bitmap (Canvas2D.clearRect c) !! p = Canvas2D.bitmap c !! p
  \/ Canvas2D.bitmap (Canvas2D.clearRect c) !! p = None.
Proof. right. apply lookup_empty. Qed.

(** C8. A clear event from another author [A] wipes [A]'s layer and no
    other: the user's own layer, every other remote layer and the history
    stacks are unchanged.  Whatever another author's layer showed in the
    composition is still shown, and the recomposed canvas is what the
    layers other than [A]'s compose to. *)
Theorem remote_clear_wipes_only_sender (app : App.t) (data : Wire.Data) (A : string) :
  Wire.truthyId data = Some A ->
  A <> App.userId app ->
  let cm := App.canvasManager app in
  let cm' := App.canvasManager (App.socketClearCanvas app data) in
  userCanvas cm' = userCanvas cm
  /\ (forall B, B <> A ->
        remoteGet B (remoteCanvases cm') = remoteGet B (remoteCanvases cm))
  /\ remoteBitmap cm' A = ∅
  /\ undoStack cm' = undoStack cm
  /\ redoStack cm' = redoStack cm
  /\ (forall p b col,
        b <> RemoteUser A -> shown cm p = Some (b, col) -> shown cm' p = Some (b, col))
  /\ (remoteGet A (remoteCanvases cm) = None -> cm' = cm)
  /\ (is_Some (remoteGet A (remoteCanvases cm)) ->
      canvas cm'
      = canvas (composeLayers (set_remoteCanvases (remoteDelete A (remoteCanvases cm)) cm))).
Proof.
  intros Hid Hself cm cm'. subst cm'.
  assert (Wire.userId data = Some A /\ Canvas2D.nonempty A = true) as [Hu Hne].
  { unfold Wire.truthyId in Hid. destruct (Wire.userId data) as [u |]; [| discriminate].
    destruct (Canvas2D.nonempty u) eqn:E; [| discriminate].
    injection Hid as ->. auto. }
  unfold App.socketClearCanvas, App.onClearCanvas.
  rewrite Hu, bool_decide_eq_false_2 by congruence.
  cbn [negb App.canvasManager App.set_canvasManager]. fold cm.
  unfold clearRemoteCanvas. rewrite Hne. cbn [negb].
  unfold remoteBitmap.
  destruct (remoteGet A (remoteCanvases cm)) as [c |] eqn:Hg.
  - repeat split.
    + intros B HB. cbn. apply remoteGet_alter_ne. congruence.
    + cbn [composeLayers remoteCanvases set_canvas onRemoteCtx set_remoteCanvases].
      rewrite remoteGet_alter_eq, Hg. reflexivity.
    + intros p b col Hb Hs. rewrite shown_composeLayers.
      apply shown_onRemoteCtx; [apply clearRect_shrinks | exact Hb | exact Hs].
    + discriminate.
    + intros _. unfold composeLayers, onRemoteCtx. cbn. apply compose_cleared.
  - rewrite Hg. repeat split; try reflexivity; try tauto.
    intros [? [=]].
Qed.

(** ** Eraser strokes *)

Lemma destination_out_nothing (col : string) (dst : gmap (Z * Z) string) :
  Canvas2D.destination_out (Canvas2D.paint col ∅) dst = dst.
Proof.
  unfold Canvas2D.destination_out, Canvas2D.paint.
  rewrite gset_to_gmap_empty. apply map_difference_empty.
Qed.

Lemma destination_out_shrinks (src dst : gmap (Z * Z) string) (p : Z * Z) :
  Canvas2D.destination_out src dst !! p = dst !! p
  \/ Canvas2D.destination_out src dst !! p = None.
Proof.
  unfold Canvas2D.destination_out. rewrite lookup_difference.
  destruct (src !! p); auto.
Qed.

(** Under the eraser the layer is transparent. *)
Lemma destination_out_covered (col : string) (cover : gset (Z * Z))
  (dst : gmap (Z * Z) string) (p : Z * Z) :
  p ∈ cover -> Canvas2D.destination_out (Canvas2D.paint col cover) dst !! p = None.
Proof.
  intros Hp. unfold Canvas2D.destination_out, Canvas2D.paint.
  apply lookup_difference_None. right.
  exists col. apply lookup_gset_to_gmap_Some. auto.
Qed.

Lemma remote_step_frame (cm : CanvasManager) (A : string)
  (f : Canvas2D.Canvas -> Canvas2D.Canvas) :
  let cm' := onRemoteCtx A f (getOrCreateRemoteCanvas cm A) in
  userCanvas cm' = userCanvas cm
  /\ (forall B, B <> A ->
        remoteGet B (remoteCanvases cm') = remoteGet B (remoteCanvases cm))
  /\ remoteBitmap cm' A = Canvas2D.bitmap (f (default Canvas2D.createCanvas
                                               (remoteGet A (remoteCanvases cm))))
  /\ undoStack cm' = undoStack cm
  /\ redoStack cm' = redoStack cm.
Proof.
  cbv zeta. split; [| split; [| split; [| split]]].
  - unfold getOrCreateRemoteCanvas.
    destruct (remoteGet A (remoteCanvases cm)); reflexivity.
  - intros B HB. cbn [onRemoteCtx remoteCanvases set_remoteCanvases].
    rewrite remoteGet_alter_ne by congruence. apply getOrCreate_other. congruence.
  - unfold remoteBitmap. cbn [onRemoteCtx remoteCanvases set_remoteCanvases].
    rewrite remoteGet_alter_eq, getOrCreate_get. reflexivity.
  - unfold getOrCreateRemoteCanvas.
    destruct (remoteGet A (remoteCanvases cm)); reflexivity.
  - unfold getOrCreateRemoteCanvas.
    destruct (remoteGet A (remoteCanvases cm)); reflexivity.
Qed.

Lemma remoteBitmap_default (cm : CanvasManager) (A : string) :
  Canvas2D.bitmap (default Canvas2D.createCanvas (remoteGet A (remoteCanvases cm)))
  = remoteBitmap cm A.
Proof.
  unfold remoteBitmap. destruct (remoteGet A (remoteCanvases cm)); reflexivity.
Qed.

Section EraserIsolation.
Context `{!Canvas2D.Rasterizer}.

(** An eraser event for [A] is some function [f] run on [A]'s canvas,
    followed or not by a recomposition; [f] only takes paint away. *)
Lemma applyRemoteDrawing_eraser (cm : CanvasManager) (d : Wire.Data) (A : string) :
  Wire.truthyId d = Some A ->
  Wire.mode d = "eraser" ->
  exists f,
    (stateOf (applyRemoteDrawing cm d)
     = onRemoteCtx A f (getOrCreateRemoteCanvas cm A)
     \/ stateOf (applyRemoteDrawing cm d)
        = composeLayers (onRemoteCtx A f (getOrCreateRemoteCanvas cm A)))
    /\ (Wire.type d = "move" -> is_Some (Wire.pos d) ->
        stateOf (applyRemoteDrawing cm d)
        = composeLayers (onRemoteCtx A f (getOrCreateRemoteCanvas cm A)))
    /\ (forall c, exists cover,
          Canvas2D.bitmap (f c)
          = Canvas2D.destination_out (Canvas2D.paint "rgba(0,0,0,1)" cover)
              (Canvas2D.bitmap c)).
Proof.
  intros Hid Hmode. unfold applyRemoteDrawing. rewrite Hid.
  rewrite (decide_True (P := Wire.mode d = "eraser")) by exact Hmode.
  cbv zeta.
  destruct (decide (Wire.type d = "start")) as [Hs | Hs];
    [| destruct (decide (Wire.type d = "move")) as [Hm | Hm];
       [| destruct (decide (Wire.type d = "end")) as [He | He]]].
  - destruct (Wire.pos d) as [pos |]; cbn [stateOf]; rewrite !onRemoteCtx_fuse;
      (eexists; split; [left; reflexivity | split; [intros; congruence |]]);
      intros c; exists ∅; rewrite destination_out_nothing; reflexivity.
  - destruct (Wire.pos d) as [pos |]; cbn [stateOf]; rewrite !onRemoteCtx_fuse.
    + eexists; split; [right; reflexivity | split; [reflexivity |]].
      intros c. destruct (last (Canvas2D.path c)) eqn:E; eexists;
        unfold Canvas2D.stroke, Canvas2D.lineTo, Canvas2D.moveTo; cbn;
        rewrite E; cbn; reflexivity.
    + eexists; split; [left; reflexivity | split; [intros _ [? [=]] |]].
      intros c; exists ∅; rewrite destination_out_nothing; reflexivity.
  - cbn [stateOf]; rewrite !onRemoteCtx_fuse.
    eexists; split; [right; reflexivity | split; [intros; congruence |]].
    intros c; exists ∅; rewrite destination_out_nothing.
    unfold Canvas2D.closePath. cbn. destruct (last (Canvas2D.path c)); reflexivity.
  - cbn [stateOf]; rewrite !onRemoteCtx_fuse.
    eexists; split; [left; reflexivity | split; [intros; congruence |]].
    intros c; exists ∅; rewrite destination_out_nothing; reflexivity.
Qed.

End EraserIsolation.

Lemma destination_out_twice (col : string) (c1 c2 : gset (Z * Z))
  (dst : gmap (Z * Z) string) :
  Canvas2D.destination_out (Canvas2D.paint col c2)
    (Canvas2D.destination_out (Canvas2D.paint col c1) dst)
  = Canvas2D.destination_out (Canvas2D.paint col (c1 ∪ c2)) dst.
Proof.
  unfold Canvas2D.destination_out, Canvas2D.paint. apply map_eq. intros p.
  apply option_eq. intros col'.
  rewrite !lookup_difference_Some, !lookup_gset_to_gmap_None, not_elem_of_union.
  tauto.
Qed.

(** What the local layer loses cannot hide another author's paint. *)
Lemma shown_local_shrink (cm cm' : CanvasManager) (p : Z * Z) (b : Author) (col : string) :
  remoteCanvases cm' = remoteCanvases cm ->
  (Canvas2D.bitmap (userCanvas cm') !! p = Canvas2D.bitmap (userCanvas cm) !! p
   \/ Canvas2D.bitmap (userCanvas cm') !! p = None) ->
  b <> LocalUser ->
  shown cm p = Some (b, col) ->
  shown cm' p = Some (b, col).
Proof.
  intros Hr Hsh Hb. unfold shown, layersTopDown. rewrite Hr, !topAt_app.
  destruct (topAt p (rev (map tagRemote (remoteCanvases cm)))); [trivial |].
  cbn [topAt]. destruct Hsh as [-> | ->]; [trivial |].
  destruct (Canvas2D.bitmap (userCanvas cm) !! p); [| trivial].
  intros [= <- _]. contradiction Hb. reflexivity.
Qed.

Section LocalEraser.
Context `{!Canvas2D.Rasterizer}.

Lemma handlePointerDown_eraser (cm : CanvasManager) (e : PointerEvent) :
  mode cm = "eraser" ->
  isPrimary e = true ->
  drawing (handlePointerDown cm e) = true
  /\ Canvas2D.globalCompositeOperation (userCanvas (handlePointerDown cm e))
     = Canvas2D.DestinationOut
  /\ Canvas2D.strokeStyle (userCanvas (handlePointerDown cm e)) = "rgba(0,0,0,1)"
  /\ Canvas2D.bitmap (userCanvas (handlePointerDown cm e))
     = Canvas2D.bitmap (userCanvas cm).
Proof.
  unfold isPrimary. intros Hm Hp. unfold handlePointerDown.
  assert (match button e with Some b => negb (b =? 0) | None => false end = false) as ->.
  { destruct (button e); [rewrite Hp |]; reflexivity. }
  destruct (pushUndo_fields cm) as (Hmode & Huc & _).
  set (cm0 := pushUndo cm) in *. clearbody cm0.
  unfold emitDrawEvent, onUserCtx. cbn. rewrite Hmode, Hm.
  rewrite decide_True by reflexivity. cbn.
  destruct (onStateChange cm0); cbn; rewrite Huc; repeat split.
Qed.

Lemma handlePointerMove_eraser (cm : CanvasManager) (e : PointerEvent) :
  drawing cm = true ->
  Canvas2D.globalCompositeOperation (userCanvas cm) = Canvas2D.DestinationOut ->
  let cm' := handlePointerMove cm e in
  drawing cm' = true
  /\ Canvas2D.globalCompositeOperation (userCanvas cm') = Canvas2D.DestinationOut
  /\ Canvas2D.strokeStyle (userCanvas cm') = Canvas2D.strokeStyle (userCanvas cm)
  /\ (exists cover,
        Canvas2D.bitmap (userCanvas cm')
        = Canvas2D.destination_out
            (Canvas2D.paint (Canvas2D.strokeStyle (userCanvas cm)) cover)
            (Canvas2D.bitmap (userCanvas cm)))
  /\ (forall p, canvas cm' !! p = snd <$> shown cm' p).
Proof.
  intros Hd Hop. cbv zeta.
  assert (handlePointerMove cm e
          = emitDrawEvent
              (composeLayers
                 (set_lastPos (getPointerPos cm e)
                    (onUserCtx Canvas2D.stroke
                       (onUserCtx (Canvas2D.lineTo (getPointerPos cm e)) cm))))
              "move" (getPointerPos cm e)) as ->.
  { unfold handlePointerMove. rewrite Hd. reflexivity. }
  set (cm1 := set_lastPos _ _).
  assert (forall c, userCanvas (emitDrawEvent (composeLayers cm1) "move" c) = userCanvas cm1
                    /\ drawing (emitDrawEvent (composeLayers cm1) "move" c) = drawing cm
                    /\ canvas (emitDrawEvent (composeLayers cm1) "move" c)
                       = canvas (composeLayers cm1)
                    /\ (forall p, shown (emitDrawEvent (composeLayers cm1) "move" c) p
                                  = shown cm1 p)) as Hemit.
  { intros c. unfold emitDrawEvent. cbn [onStateChange composeLayers set_canvas].
    destruct (onStateChange cm1); repeat split. }
  destruct (Hemit (getPointerPos cm e)) as (-> & -> & Hc & Hs).
  assert (Canvas2D.globalCompositeOperation (userCanvas cm1) = Canvas2D.DestinationOut
          /\ Canvas2D.strokeStyle (userCanvas cm1) = Canvas2D.strokeStyle (userCanvas cm)
          /\ exists cover,
              Canvas2D.bitmap (userCanvas cm1)
              = Canvas2D.destination_out
                  (Canvas2D.paint (Canvas2D.strokeStyle (userCanvas cm)) cover)
                  (Canvas2D.bitmap (userCanvas cm))) as (H1 & H2 & H3).
  { subst cm1. unfold onUserCtx, Canvas2D.stroke, Canvas2D.lineTo, Canvas2D.moveTo.
    cbn. destruct (last (Canvas2D.path (userCanvas cm))) eqn:E; cbn;
      rewrite Hop; cbn; repeat split; eexists; reflexivity. }
  repeat split; try assumption.
  intros p. rewrite Hc, Hs. apply composeLayers_shown.
Qed.

Lemma eraser_moves (es : list PointerEvent) (cm : CanvasManager) :
  drawing cm = true ->
  Canvas2D.globalCompositeOperation (userCanvas cm) = Canvas2D.DestinationOut ->
  let cm' := fold_left handlePointerMove es cm in
  drawing cm' = true
  /\ Canvas2D.globalCompositeOperation (userCanvas cm') = Canvas2D.DestinationOut
  /\ Canvas2D.strokeStyle (userCanvas cm') = Canvas2D.strokeStyle (userCanvas cm)
  /\ exists cover,
       Canvas2D.bitmap (userCanvas cm')
       = Canvas2D.destination_out
           (Canvas2D.paint (Canvas2D.strokeStyle (userCanvas cm)) cover)
           (Canvas2D.bitmap (userCanvas cm)).
Proof.
  revert cm. induction es as [| e es IH]; intros cm Hd Hop; cbn [fold_left].
  - repeat split; try assumption. exists ∅. symmetry. apply destination_out_nothing.
  - destruct (handlePointerMove_eraser cm e Hd Hop) as (Hd1 & Hop1 & Hst1 & [c1 Hb1] & _).
    destruct (IH _ Hd1 Hop1) as (Hd2 & Hop2 & Hst2 & [c2 Hb2]).
    repeat split; try assumption; [congruence |].
    exists (c1 ∪ c2). rewrite Hb2, Hst1, Hb1. apply destination_out_twice.
Qed.

End LocalEraser.

Section EraserTheorem.
Context `{!Canvas2D.Rasterizer}.

Lemma eraser_function_shrinks (f : Canvas2D.Canvas -> Canvas2D.Canvas) (p : Z * Z) :
  (forall c, exists cover,
      Canvas2D.bitmap (f c)
      = Canvas2D.destination_out (Canvas2D.paint "rgba(0,0,0,1)" cover)
          (Canvas2D.bitmap c)) ->
  forall c, Canvas2D.bitmap (f c) !! p = Canvas2D.bitmap c !! p
            \/ Canvas2D.bitmap (f c) !! p = None.
Proof.
  intros Hf c. destruct (Hf c) as [cover ->]. apply destination_out_shrinks.
Qed.

(** C1. An eraser stroke changes the author's own layer only, and only
    by destination-out compositing.
    Locally, with the eraser selected, a pointer-down followed by any
    number of moves leaves the user's layer equal to its old bitmap
    with some set of pixels taken out, and leaves every remote layer
    as it was.  Remotely, an eraser event of author [A] does the same
    to [A]'s layer and changes neither the user's layer nor the layer
    of any other remote author.  In both cases whatever another
    author's layer showed in the composition is still shown, and it is
    on the visible canvas once the stroke has been recomposed. *)
Theorem eraser_confined_to_own_layer :
  (forall (cm : CanvasManager) (e0 : PointerEvent) (es : list PointerEvent)
          (e : PointerEvent),
      mode cm = "eraser" ->
      isPrimary e0 = true ->
      let cm1 := handlePointerDown cm e0 in
      let cm2 := handlePointerMove (fold_left handlePointerMove es cm1) e in
      Canvas2D.globalCompositeOperation (userCanvas cm1) = Canvas2D.DestinationOut
      /\ (exists cover,
            Canvas2D.bitmap (userCanvas cm2)
            = Canvas2D.destination_out (Canvas2D.paint "rgba(0,0,0,1)" cover)
                (Canvas2D.bitmap (userCanvas cm)))
      /\ remoteCanvases cm2 = remoteCanvases cm
      /\ (forall p b col,
            b <> LocalUser ->
            shown cm p = Some (b, col) ->
            shown cm2 p = Some (b, col) /\ canvas cm2 !! p = Some col))
  /\ (forall (cm : CanvasManager) (d : Wire.Data) (A : string),
        Wire.truthyId d = Some A ->
        Wire.mode d = "eraser" ->
        let cm' := stateOf (applyRemoteDrawing cm d) in
        (exists cover,
            remoteBitmap cm' A
            = Canvas2D.destination_out (Canvas2D.paint "rgba(0,0,0,1)" cover)
                (remoteBitmap cm A))
        /\ userCanvas cm' = userCanvas cm
        /\ (forall B, B <> A ->
              remoteGet B (remoteCanvases cm') = remoteGet B (remoteCanvases cm))
        /\ (forall p b col,
              b <> RemoteUser A ->
              shown cm p = Some (b, col) ->
              shown cm' p = Some (b, col)
              /\ (Wire.type d = "move" -> is_Some (Wire.pos d) ->
                  canvas cm' !! p = Some col))).
Proof.
  split.
  - intros cm e0 es e Hm Hp cm1 cm2.
    destruct (handlePointerDown_eraser cm e0 Hm Hp) as (Hd & Hop & Hst & Hbm).
    fold cm1 in Hd, Hop, Hst, Hbm.
    destruct (eraser_moves es cm1 Hd Hop) as (Hd2 & Hop2 & Hst2 & [c2 Hb2]).
    destruct (handlePointerMove_eraser _ e Hd2 Hop2) as (_ & _ & _ & [c3 Hb3] & Hcanvas).
    fold cm2 in Hb3, Hcanvas.
    assert (Canvas2D.bitmap (userCanvas cm2)
            = Canvas2D.destination_out (Canvas2D.paint "rgba(0,0,0,1)" (c2 ∪ c3))
                (Canvas2D.bitmap (userCanvas cm))) as Hbits.
    { rewrite Hb3, Hst2, Hb2, Hst, Hbm. apply destination_out_twice. }
    assert (remoteCanvases cm2 = remoteCanvases cm) as Hrem.
    { unfold cm2. rewrite handlePointerMove_remote, moves_remote.
      apply handlePointerDown_remote. }
    split; [exact Hop |]. split; [eauto |]. split; [exact Hrem |].
    intros p b col Hb Hs.
    assert (shown cm2 p = Some (b, col)) as Hs2.
    { apply (shown_local_shrink cm cm2 p b col Hrem); [| exact Hb | exact Hs].
      rewrite Hbits. apply destination_out_shrinks. }
    split; [exact Hs2 |]. rewrite Hcanvas, Hs2. reflexivity.
  - intros cm d A Hid Hmode cm'.
    destruct (applyRemoteDrawing_eraser cm d A Hid Hmode) as (f & Hstate & Hmove & Hf).
    fold cm' in Hstate, Hmove.
    destruct (remote_step_frame cm A f) as (Hu & Hother & Hbits & _).
    set (X := onRemoteCtx A f (getOrCreateRemoteCanvas cm A)) in *.
    assert (forall p b col, b <> RemoteUser A -> shown cm p = Some (b, col) ->
                            shown X p = Some (b, col)) as Hshown.
    { intros p b col Hb Hs. apply shown_onRemoteCtx;
        [apply eraser_function_shrinks, Hf | exact Hb |].
      rewrite shown_getOrCreate. exact Hs. }
    assert (userCanvas cm' = userCanvas X /\ remoteCanvases cm' = remoteCanvases X
            /\ remoteBitmap cm' A = remoteBitmap X A
            /\ forall p, shown cm' p = shown X p) as (E1 & E2 & E3 & E4).
    { destruct Hstate as [-> | ->]; repeat split. }
    split; [| split; [| split]].
    + destruct (Hf (default Canvas2D.createCanvas (remoteGet A (remoteCanvases cm))))
        as [cover Hc].
      exists cover. rewrite E3, Hbits, Hc, remoteBitmap_default. reflexivity.
    + rewrite E1. exact Hu.
    + intros B HB. rewrite E2. apply Hother, HB.
    + intros p b col Hb Hs. split.
      * rewrite E4. apply Hshown; assumption.
      * intros Ht Hpos. rewrite (Hmove Ht Hpos), composeLayers_shown.
        fold X. rewrite (Hshown p b col Hb Hs). reflexivity.
Qed.

End EraserTheorem.

(** ** Depth of the history *)

Lemma pushUndo_evicts_oldest (cm : CanvasManager) :
  (MAX_STACK <= length (undoStack cm))%nat ->
  undoStack (pushUndo cm) = tail (undoStack cm) ++ [Canvas2D.toDataURL (userCanvas cm)].
Proof.
  intros Hfull. unfold pushUndo, push, shift.
  rewrite (proj2 (Nat.leb_le _ _) Hfull). reflexivity.
Qed.

Lemma pushUndo_below (cm : CanvasManager) :
  (length (undoStack cm) < MAX_STACK)%nat ->
  undoStack (pushUndo cm) = undoStack cm ++ [Canvas2D.toDataURL (userCanvas cm)].
Proof.
  intros Hlt. unfold pushUndo, push.
  rewrite (proj2 (Nat.leb_gt _ _) Hlt). reflexivity.
Qed.

Lemma pushUndo_length (cm : CanvasManager) :
  (length (undoStack cm) <= MAX_STACK)%nat ->
  (length (undoStack (pushUndo cm)) <= MAX_STACK)%nat.
Proof.
  intros Hle. destruct (le_lt_dec MAX_STACK (length (undoStack cm))) as [Hfull | Hlt].
  - rewrite (pushUndo_evicts_oldest cm Hfull), length_app. cbn [length].
    destruct (undoStack cm); cbn [tail length] in *; unfold MAX_STACK in *; lia.
  - rewrite (pushUndo_below cm Hlt), length_app. cbn [length]. unfold MAX_STACK in *. lia.
Qed.

Lemma applyDataUrl_history (cm : CanvasManager) (u : Canvas2D.DataUrl) :
  undoStack (applyDataUrl cm u).2 = undoStack cm
  /\ redoStack (applyDataUrl cm u).2 = redoStack cm.
Proof. unfold applyDataUrl. destruct (Canvas2D.loadImage u); split; reflexivity. Qed.

Lemma undo_lengths (cm : CanvasManager) :
  (length (undoStack (undo cm).2) + length (redoStack (undo cm).2)
   = length (undoStack cm) + length (redoStack cm))%nat
  /\ (length (undoStack (undo cm).2) <= length (undoStack cm))%nat.
Proof.
  destruct (decide (undoStack cm = [])) as [He | Hne].
  - rewrite (undo_empty cm He). split; reflexivity.
  - destruct (nonempty_snoc _ Hne) as (rest & top & Hu).
    rewrite (undo_snoc cm rest top Hu). cbv zeta. cbn [snd].
    destruct (applyDataUrl_history
                (set_undoStack rest
                   (set_redoStack (redoStack cm ++ [Canvas2D.toDataURL (userCanvas cm)]) cm))
                top) as [-> ->].
    cbn [undoStack redoStack set_undoStack set_redoStack].
    rewrite Hu, !length_app. cbn [length]. lia.
Qed.

Lemma redo_lengths (cm : CanvasManager) :
  (length (undoStack (redo cm).2) + length (redoStack (redo cm).2)
   = length (undoStack cm) + length (redoStack cm))%nat.
Proof.
  destruct (decide (redoStack cm = [])) as [He | Hne].
  - rewrite (redo_empty cm He). reflexivity.
  - destruct (nonempty_snoc _ Hne) as (rest & top & Hr).
    rewrite (redo_snoc cm rest top Hr). cbv zeta. cbn [snd].
    destruct (applyDataUrl_history
                (set_redoStack rest
                   (set_undoStack (undoStack cm ++ [Canvas2D.toDataURL (userCanvas cm)]) cm))
                top) as [-> ->].
    cbn [undoStack redoStack set_undoStack set_redoStack].
    rewrite Hr, !length_app. cbn [length]. lia.
Qed.

Section WholeActions.
Context `{!Canvas2D.Rasterizer}.

Lemma drawGesture_lengths (cm : CanvasManager) (g : Gesture) :
  (length (undoStack cm) + length (redoStack cm) <= MAX_STACK)%nat ->
  (length (undoStack (drawGesture cm g)) + length (redoStack (drawGesture cm g))
   <= MAX_STACK)%nat.
Proof.
  intros Hle. unfold drawGesture.
  set (cm1 := handlePointerDown cm (down g)).
  destruct (moves_history (moves g) cm1) as (Hu & Hr & Hd).
  set (cm2 := fold_left handlePointerMove (moves g) cm1) in *.
  rewrite handlePointerUp_undoStack, Hu.
  destruct (isPrimary (down g)) eqn:Hp.
  - destruct (handlePointerDown_primary cm (down g) Hp) as (Hd1 & Hu1 & _ & _).
    fold cm1 in Hd1, Hu1. rewrite Hd1 in Hd.
    rewrite (handlePointerUp_drawing cm2 (up g) Hd), Hu1. cbn [length].
    pose proof (pushUndo_length cm). unfold MAX_STACK in *. lia.
  - assert (cm1 = cm) as Hsame by (apply handlePointerDown_blocked, Hp).
    rewrite Hsame in *.
    assert (length (redoStack (handlePointerUp cm2 (up g))) <= length (redoStack cm))%nat.
    { unfold handlePointerUp. destruct (drawing cm2); cbn [negb].
      - unfold emitDrawEvent, composeLayers, onUserCtx.
        case_guards; cbn [redoStack set_emitted set_canvas set_redoStack length]; lia.
      - rewrite Hr. lia. }
    unfold MAX_STACK in *. lia.
Qed.

(** With whole actions (a stroke from pointer-down to pointer-up,
    [clear], [undo], [redo]) the two stacks together never hold more
    than [MAX_STACK] snapshots. *)
Lemma history_bounded_whole_actions (actions : list Action) (cm : CanvasManager) :
  (length (undoStack cm) + length (redoStack cm) <= MAX_STACK)%nat ->
  (length (undoStack (fold_left perform actions cm))
   + length (redoStack (fold_left perform actions cm)) <= MAX_STACK)%nat.
Proof.
  revert cm. induction actions as [| a actions IH]; intros cm Hle; [exact Hle |].
  cbn [fold_left]. apply IH. destruct a; cbn [perform].
  - apply drawGesture_lengths, Hle.
  - destruct (clear_history cm) as [-> _]. cbn [length].
    assert (undoStack (clear cm) = undoStack (pushUndo cm)) as -> by reflexivity.
    pose proof (pushUndo_length cm). unfold MAX_STACK in *. lia.
  - destruct (undo_lengths cm) as [-> _]. exact Hle.
  - rewrite redo_lengths. exact Hle.
Qed.

End WholeActions.

(** C4, at the input where the code departs from it.  [pushUndo] keeps
    [undoStack] at [MAX_STACK] entries by dropping the oldest, but [redo]
    pushes without that check, and [redoStack] is emptied on pointer-up
    only: after fifty strokes, an undo and a pointer-down, a redo issued
    before the pointer is released leaves fifty-one entries on
    [undoStack]. *)
Theorem redo_mid_stroke_exceeds_depth :
  length (undoStack fiftyStrokes) = MAX_STACK
  /\ length (undoStack redoMidStroke) = S MAX_STACK.
Proof. split; vm_compute; reflexivity. Qed.

(** ** The history only ever holds snapshots *)

Lemma snapshotsOnly_new (left top : Z) : snapshotsOnly (newCanvasManager left top).
Proof. split; constructor. Qed.

Lemma pushUndo_snapshots (cm : CanvasManager) :
  snapshotsOnly cm -> snapshotsOnly (pushUndo cm).
Proof.
  intros [Hu Hr]. destruct (pushUndo_fields cm) as (_ & _ & _ & Hredo & _).
  split; [| rewrite Hredo; exact Hr].
  assert (Forall (fun u => is_Some (Canvas2D.loadImage u)) (tail (undoStack cm))) as Ht.
  { destruct Hu; [constructor | assumption]. }
  unfold pushUndo, push, shift.
  destruct (MAX_STACK <=? length (undoStack cm))%nat;
    cbn [undoStack set_undoStack]; apply Forall_app; split; auto;
    repeat constructor; eexists; reflexivity.
Qed.

Lemma undo_snapshots (cm : CanvasManager) :
  snapshotsOnly cm -> snapshotsOnly (undo cm).2.
Proof.
  intros [Hu Hr]. destruct (decide (undoStack cm = [])) as [He | Hne].
  - rewrite (undo_empty cm He). split; assumption.
  - destruct (nonempty_snoc _ Hne) as (rest & top & Hs).
    rewrite (undo_snoc cm rest top Hs). cbv zeta. cbn [snd].
    unfold snapshotsOnly.
    destruct (applyDataUrl_history
                (set_undoStack rest
                   (set_redoStack (redoStack cm ++ [Canvas2D.toDataURL (userCanvas cm)]) cm))
                top) as [-> ->].
    cbn [undoStack redoStack set_undoStack set_redoStack].
    rewrite Hs in Hu. apply Forall_app in Hu as [Hrest _].
    split; [exact Hrest |]. apply Forall_app. split; [exact Hr |].
    repeat constructor. eexists; reflexivity.
Qed.

Lemma redo_snapshots (cm : CanvasManager) :
  snapshotsOnly cm -> snapshotsOnly (redo cm).2.
Proof.
  intros [Hu Hr]. destruct (decide (redoStack cm = [])) as [He | Hne].
  - rewrite (redo_empty cm He). split; assumption.
  - destruct (nonempty_snoc _ Hne) as (rest & top & Hs).
    rewrite (redo_snoc cm rest top Hs). cbv zeta. cbn [snd].
    unfold snapshotsOnly.
    destruct (applyDataUrl_history
                (set_redoStack rest
                   (set_undoStack (undoStack cm ++ [Canvas2D.toDataURL (userCanvas cm)]) cm))
                top) as [-> ->].
    cbn [undoStack redoStack set_undoStack set_redoStack].
    rewrite Hs in Hr. apply Forall_app in Hr as [Hrest _].
    split; [| exact Hrest]. apply Forall_app. split; [exact Hu |].
    repeat constructor. eexists; reflexivity.
Qed.

Lemma handlePointerDown_snapshots (cm : CanvasManager) (e : PointerEvent) :
  snapshotsOnly cm -> snapshotsOnly (handlePointerDown cm e).
Proof.
  intros H. destruct (isPrimary e) eqn:Hp.
  - destruct (handlePointerDown_primary cm e Hp) as (_ & Hu & Hr & _).
    destruct (pushUndo_snapshots cm H) as [Hu' _].
    split; [rewrite Hu; exact Hu' | rewrite Hr; apply H].
  - rewrite handlePointerDown_blocked by exact Hp. exact H.
Qed.

Lemma handlePointerUp_snapshots (cm : CanvasManager) (e : PointerEvent) :
  snapshotsOnly cm -> snapshotsOnly (handlePointerUp cm e).
Proof.
  intros [Hu Hr]. split; [rewrite handlePointerUp_undoStack; exact Hu |].
  destruct (drawing cm) eqn:Hd.
  - rewrite (handlePointerUp_drawing cm e Hd). constructor.
  - unfold handlePointerUp. rewrite Hd. exact Hr.
Qed.

Section SnapshotsOnly.
Context `{!Canvas2D.Rasterizer}.

Lemma handlePointerMove_snapshots (cm : CanvasManager) (e : PointerEvent) :
  snapshotsOnly cm -> snapshotsOnly (handlePointerMove cm e).
Proof.
  intros [Hu Hr]. destruct (handlePointerMove_history cm e) as (Eu & Er & _).
  split; [rewrite Eu; exact Hu | rewrite Er; exact Hr].
Qed.

Lemma perform_snapshots (cm : CanvasManager) (a : Action) :
  snapshotsOnly cm -> snapshotsOnly (perform cm a).
Proof.
  intros Hs. destruct a as [g | | |]; cbn [perform].
  - unfold drawGesture. apply handlePointerUp_snapshots.
    destruct (moves_history (moves g) (handlePointerDown cm (down g))) as (Eu & Er & _).
    destruct (handlePointerDown_snapshots cm (down g) Hs) as [Hu Hr].
    split; [rewrite Eu; exact Hu | rewrite Er; exact Hr].
  - destruct (pushUndo_snapshots cm Hs) as [Hu _]. split; [exact Hu | constructor].
  - apply undo_snapshots, Hs.
  - apply redo_snapshots, Hs.
Qed.

Lemma actions_snapshots (actions : list Action) (cm : CanvasManager) :
  snapshotsOnly cm -> snapshotsOnly (fold_left perform actions cm).
Proof.
  revert cm. induction actions as [| a actions IH]; intros cm Hs; [exact Hs |].
  cbn [fold_left]. apply IH, perform_snapshots, Hs.
Qed.

(** Starting from the constructor, whatever the user does, a non-empty
    [undoStack] has a snapshot on top and [undo] succeeds. *)
Lemma undo_succeeds_after_actions (actions : list Action) (left top : Z) :
  let cm := fold_left perform actions (newCanvasManager left top) in
  undoStack cm <> [] -> (undo cm).1 = Resolved true.
Proof.
  intros cm Hne.
  destruct (actions_snapshots actions _ (snapshotsOnly_new left top)) as [Hu _].
  fold cm in Hu.
  destruct (nonempty_snoc _ Hne) as (rest & u & Hs).
  rewrite Hs in Hu. apply Forall_app in Hu as [_ Hu].
  inversion Hu as [| ? ? [img Himg] _]; subst.
  destruct u as [img' |]; [| discriminate].
  apply (undo_success cm rest img' Hs).
Qed.

End SnapshotsOnly.

(** ** Malformed inbound events *)

Section Malformed.
Context `{!Canvas2D.Rasterizer}.

(** A drawing event without a usable [userId] is dropped with a
    warning. *)
Lemma drawing_without_userId_dropped (cm : CanvasManager) (d : Wire.Data) :
  Wire.truthyId d = None ->
  applyRemoteDrawing cm d = Normal (warn "Drawing data missing userId" cm).
Proof. intros Hid. unfold applyRemoteDrawing. rewrite Hid. reflexivity. Qed.

(** A snapshot that does not decode leaves every bitmap as it was; the
    sender gets a blank layer if it had none. *)
Lemma undecodable_snapshot_dropped (cm : CanvasManager) (u s : string) :
  Canvas2D.nonempty u = true ->
  Canvas2D.nonempty s = true ->
  updateRemoteCanvas cm (Some u) (Some (Canvas2D.NotAnImage s))
  = error "Failed to load image for remote canvas update" (getOrCreateRemoteCanvas cm u).
Proof.
  intros Hu Hs. unfold updateRemoteCanvas. cbn [Canvas2D.truthyUrl Canvas2D.loadImage].
  rewrite Hu, Hs. reflexivity.
Qed.

(** A stroke start or move without [pos] makes the handler throw. *)
Lemma drawing_without_pos (cm : CanvasManager) (d : Wire.Data) (A : string) :
  Wire.truthyId d = Some A ->
  Wire.type d = "start" \/ Wire.type d = "move" ->
  Wire.pos d = None ->
  exists cm', applyRemoteDrawing cm d = Throw "TypeError" cm'.
Proof.
  intros Hid Ht Hpos. unfold applyRemoteDrawing. rewrite Hid, Hpos. cbv zeta.
  destruct Ht as [Ht | Ht]; rewrite Ht.
  - rewrite (decide_True (P := "start" = "start")) by reflexivity. eauto.
  - rewrite (decide_False (P := "move" = "start")) by discriminate.
    rewrite (decide_True (P := "move" = "move")) by reflexivity. eauto.
Qed.

(** C9, at the input where the code departs from it.  A drawing event
    from another author whose [pos] is missing is not dropped: the
    listener has already created a layer for the sender when reading
    [pos.x] throws a [TypeError] out of the handler. *)
Theorem drawing_without_pos_throws :
  exists app',
    App.socketDrawing aliceApp startWithoutPos = Throw "TypeError" app'
    /\ remoteCanvases (App.canvasManager aliceApp) = []
    /\ remoteCanvases (App.canvasManager app')
       = [("bob",
           Canvas2D.set_strokeStyle "#ff0000"
             (Canvas2D.set_lineWidth 5
                (Canvas2D.set_lineJoin Canvas2D.JoinRound
                   (Canvas2D.set_lineCap Canvas2D.CapRound Canvas2D.createCanvas))))]
    /\ console (App.canvasManager app') = [].
Proof. eexists. repeat split. Qed.

End Malformed.

(** ** The properties at concrete inputs *)

(** The scenario of the two overlapping strokes: bob's line hides the
    user's; when bob erases along it the user's line shows again, and
    when the user erases instead bob's line stays on the canvas. *)
Example overlap_then_erase :
  shown sharedCanvas (10, 10) = Some (RemoteUser "bob", "#0000ff")
  /\ (let cm :=
        stateOf (@applyRemoteDrawing vertexRasterizer sharedCanvas
                   (bobEvent "start" 10 10 "eraser")) in
      let cm :=
        stateOf (@applyRemoteDrawing vertexRasterizer cm (bobEvent "move" 50 10 "eraser")) in
      canvas cm = {[ (10, 10) := "#000000"; (50, 10) := "#000000" ]})
  /\ (let cm := handlePointerDown sharedCanvas (pointerAt 10 10) in
      let cm := @handlePointerMove vertexRasterizer cm (pointerAt 50 10) in
      Canvas2D.bitmap (userCanvas cm) = ∅
      /\ canvas cm = {[ (10, 10) := "#0000ff"; (50, 10) := "#0000ff" ]}).
Proof. vm_compute. repeat split. Qed.

(** Five strokes past the depth: the stack holds the snapshots taken
    before strokes 5 to 54, oldest first; the one before stroke [k] has
    the dots of strokes 0 to [k - 1]. *)
Example eviction_keeps_newest :
  undoStack (fold_left (@drawGesture vertexRasterizer) (map dotGesture (seq 0 55))
               (newCanvasManager 0 0))
  = map (fun k =>
           Canvas2D.PngImage
             (list_to_map (map (fun i => ((Z.of_nat i, 0), "#000000")) (seq 0 k))))
      (seq 5 50).
Proof.
  match goal with |- _ = ?r => vm_cast_no_check (@eq_refl _ r) end.
Qed.

Lemma eraser_confined_witness :
  (let cm1 := handlePointerDown sharedCanvas (pointerAt 10 10) in
   let cm2 :=
     @handlePointerMove vertexRasterizer
       (fold_left (@handlePointerMove vertexRasterizer) [pointerAt 30 10] cm1)
       (pointerAt 50 10) in
   remoteCanvases cm2 = remoteCanvases sharedCanvas)
  /\ (let cm' :=
        stateOf (@applyRemoteDrawing vertexRasterizer sharedCanvas
                   (bobEvent "move" 50 10 "eraser")) in
      userCanvas cm' = userCanvas sharedCanvas).
Proof.
  assert (mode sharedCanvas = "eraser") as Hmode by (vm_compute; reflexivity).
  assert (isPrimary (pointerAt 10 10) = true) as Hprim by reflexivity.
  assert (Wire.truthyId (bobEvent "move" 50 10 "eraser") = Some "bob") as Hid
    by reflexivity.
  assert (Wire.mode (bobEvent "move" 50 10 "eraser") = "eraser") as Hm by reflexivity.
  split.
  - exact (proj1 (proj2 (proj2
             (proj1 (@eraser_confined_to_own_layer vertexRasterizer)
                sharedCanvas (pointerAt 10 10) [pointerAt 30 10] (pointerAt 50 10)
                Hmode Hprim)))).
  - exact (proj1 (proj2
             (proj2 (@eraser_confined_to_own_layer vertexRasterizer)
                sharedCanvas (bobEvent "move" 50 10 "eraser") "bob" Hid Hm))).
Defined.

Lemma undo_redo_round_trip_witness :
  let cm1 :=
    @drawGesture vertexRasterizer
      (fold_left (@drawGesture vertexRasterizer) [dotGesture 0] (newCanvasManager 0 0))
      lineGesture in
  (undo cm1).1 = Resolved true
  /\ Canvas2D.bitmap (userCanvas (redo (undo cm1).2).2) = Canvas2D.bitmap (userCanvas cm1).
Proof.
  assert (isPrimary (down lineGesture) = true) as Hprim by reflexivity.
  pose proof (@undo_redo_round_trip vertexRasterizer (newCanvasManager 0 0)
                [dotGesture 0] lineGesture Hprim) as H.
  exact (conj (proj1 H) (proj1 (proj2 (proj2 H)))).
Defined.

Lemma decode_fault_rejects_witness :
  let cm := App.canvasManager brokenApp in
  (undo cm).1 = Rejected "Failed to load image"
  /\ userCanvas (undo cm).2 = userCanvas cm
  /\ (redo cm).1 = Rejected "Failed to load image"
  /\ App.wsClient (App.redoClick brokenApp).2 = App.wsClient brokenApp.
Proof.
  assert (Canvas2D.loadImage (Canvas2D.NotAnImage "data:,") = None) as Hl by reflexivity.
  assert (undoStack (App.canvasManager brokenApp) = [] ++ [Canvas2D.NotAnImage "data:,"])
    as Hu by reflexivity.
  assert (redoStack (App.canvasManager brokenApp) = [] ++ [Canvas2D.NotAnImage "data:,"])
    as Hr by reflexivity.
  pose proof (decode_fault_rejects brokenApp [] (Canvas2D.NotAnImage "data:,") Hl) as H.
  pose proof (proj1 H Hu) as H1.
  pose proof (proj2 H Hr) as H2.
  exact (conj (proj1 H1)
           (conj (proj1 (proj2 H1))
              (conj (proj1 H2) (proj2 (proj2 (proj2 (proj2 (proj2 H2)))))))).
Defined.

(** C3 as stated fails here: the popped entry does not decode, the
    layer is untouched, yet the result of [undo] is not the boolean
    [false]. *)
Lemma undo_fault_is_not_false :
  ~ (Canvas2D.loadImage (popUrl (undoStack brokenHistory)).1 = None ->
     userCanvas (undo brokenHistory).2 = userCanvas brokenHistory
     /\ (undo brokenHistory).1 = Resolved false).
Proof. intros H. destruct (H eq_refl) as [_ H']. discriminate H'. Qed.

Lemma new_draw_invalidates_redo_witness :
  let cm1 := @drawGesture vertexRasterizer (newCanvasManager 0 0) lineGesture in
  let cm2 := (undo cm1).2 in
  let cm3 := @drawGesture vertexRasterizer cm2 lineGesture in
  redo cm3 = (Resolved false, cm3).
Proof.
  assert (isPrimary (down lineGesture) = true) as Hprim by reflexivity.
  pose proof (@new_draw_invalidates_redo vertexRasterizer (newCanvasManager 0 0)
                lineGesture lineGesture Hprim Hprim) as H.
  exact (proj2 (proj2 (proj2 (proj1 H)))).
Defined.

Lemma undo_redo_contract_witness :
  undo (newCanvasManager 0 0) = (Resolved false, newCanvasManager 0 0)
  /\ (undo oneStroke).1 = Resolved true
  /\ Canvas2D.bitmap (userCanvas (undo oneStroke).2) = ∅.
Proof.
  assert (undoStack (newCanvasManager 0 0) = []) as Hempty by reflexivity.
  assert (undoStack oneStroke = [] ++ [Canvas2D.PngImage ∅]) as Hone
    by (vm_compute; reflexivity).
  pose proof (proj1 (proj2 (proj2 (undo_redo_contract oneStroke))) [] ∅ Hone) as H.
  exact (conj (proj1 (undo_redo_contract (newCanvasManager 0 0)) Hempty)
           (conj (proj1 H) (proj1 (proj2 (proj2 (proj2 H)))))).
Defined.

Lemma loopback_suppressed_witness :
  @App.socketDrawing vertexRasterizer sharedApp ownStroke = Normal sharedApp.
Proof.
  assert (Wire.userId ownStroke = Some (WebSocketClient.userId (App.wsClient sharedApp)))
    as Hself by reflexivity.
  exact (@loopback_suppressed vertexRasterizer sharedApp ownStroke Hself).
Defined.

Lemma remote_clear_wipes_only_sender_witness :
  let cm := App.canvasManager sharedApp in
  let cm' := App.canvasManager (App.socketClearCanvas sharedApp bobClears) in
  userCanvas cm' = userCanvas cm /\ remoteBitmap cm' "bob" = ∅.
Proof.
  assert (Wire.truthyId bobClears = Some "bob") as Hid by reflexivity.
  assert ("bob" <> App.userId sharedApp) as Hne by discriminate.
  pose proof (remote_clear_wipes_only_sender sharedApp bobClears "bob" Hid Hne) as H.
  exact (conj (proj1 H) (proj1 (proj2 (proj2 H)))).
Defined.

Lemma canvas_state_overwrites_own_layer_witness :
  let cm := App.canvasManager sharedApp in
  let cm' := App.canvasManager (App.socketCanvasState sharedApp bobSendsState) in
  Canvas2D.bitmap (userCanvas cm') = {[ (3, 4) := "#0000ff" ]}
  /\ remoteCanvases cm' = remoteCanvases cm.
Proof.
  assert (Wire.canvasData bobSendsState
          = Some (Canvas2D.PngImage {[ (3, 4) := "#0000ff" ]})) as Hdata by reflexivity.
  pose proof (canvas_state_overwrites_own_layer sharedApp bobSendsState
                {[ (3, 4) := "#0000ff" ]} Hdata) as H.
  exact (conj (proj1 H) (proj1 (proj2 H))).
Defined.

(** * Further properties of the code *)

(** ** The layer store as a map *)

Lemma remoteAlter_keys (f : Canvas2D.Canvas -> Canvas2D.Canvas) (u : string)
  (l : list (string * Canvas2D.Canvas)) :
  map fst (remoteAlter f u l) = map fst l.
Proof.
  induction l as [| [k c] l IH]; [reflexivity |].
  cbn [remoteAlter]. destruct (decide (k = u)); cbn [map fst]; [reflexivity |].
  rewrite IH. reflexivity.
Qed.

Lemma remoteGet_None (u : string) (l : list (string * Canvas2D.Canvas)) :
  remoteGet u l = None <-> u ∉ map fst l.
Proof.
  induction l as [| [k c] l IH]; cbn [remoteGet map fst].
  - split; [intros _; apply not_elem_of_nil | reflexivity].
  - rewrite not_elem_of_cons. destruct (decide (k = u)) as [-> | Hne].
    + split; [discriminate | intros [Hc _]; contradiction Hc; reflexivity].
    + rewrite IH. split; [intros Hn; split; [congruence | exact Hn] | intros [_ Hn]; exact Hn].
Qed.

Lemma remoteGet_delete_ne (u v : string) (l : list (string * Canvas2D.Canvas)) :
  u <> v -> remoteGet v (remoteDelete u l) = remoteGet v l.
Proof.
  intros Huv. induction l as [| [k c] l IH]; [reflexivity |].
  cbn [remoteDelete remoteGet]. destruct (decide (k = u)) as [-> | Hne].
  - rewrite decide_False by exact Huv. reflexivity.
  - cbn [remoteGet]. destruct (decide (k = v)); [reflexivity | exact IH].
Qed.

Lemma remoteDelete_keys_subset (u k : string) (l : list (string * Canvas2D.Canvas)) :
  k ∈ map fst (remoteDelete u l) -> k ∈ map fst l.
Proof.
  induction l as [| [k' c] l IH]; [trivial |].
  cbn [remoteDelete]. destruct (decide (k' = u)); cbn [map fst].
  - intros Hin. apply elem_of_cons. right. exact Hin.
  - rewrite !elem_of_cons. intros [-> | Hin]; [left; reflexivity | right; apply IH, Hin].
Qed.

Lemma remoteDelete_NoDup (u : string) (l : list (string * Canvas2D.Canvas)) :
  NoDup (map fst l) -> NoDup (map fst (remoteDelete u l)).
Proof.
  induction l as [| [k c] l IH]; [trivial |].
  cbn [remoteDelete map fst]. rewrite NoDup_cons. intros [Hk Hl].
  destruct (decide (k = u)); [exact Hl |].
  cbn [map fst]. apply NoDup_cons. split; [| apply IH, Hl].
  intros Hin. apply Hk. eapply remoteDelete_keys_subset, Hin.
Qed.

Lemma remoteGet_delete_eq (u : string) (l : list (string * Canvas2D.Canvas)) :
  NoDup (map fst l) -> remoteGet u (remoteDelete u l) = None.
Proof.
  induction l as [| [k c] l IH]; [reflexivity |].
  cbn [remoteDelete map fst]. rewrite NoDup_cons. intros [Hk Hl].
  destruct (decide (k = u)) as [-> | Hne].
  - apply remoteGet_None, Hk.
  - cbn [remoteGet]. rewrite decide_False by exact Hne. apply IH, Hl.
Qed.

Lemma storeOk_getOrCreate (cm : CanvasManager) (u : string) :
  Canvas2D.nonempty u = true -> storeOk cm -> storeOk (getOrCreateRemoteCanvas cm u).
Proof.
  intros Hu [Hnd Hne]. unfold getOrCreateRemoteCanvas.
  destruct (remoteGet u (remoteCanvases cm)) eqn:Hg; [split; assumption |].
  unfold storeOk. cbn [remoteCanvases set_remoteCanvases].
  rewrite map_app. cbn [map fst]. split.
  - apply NoDup_app. split; [exact Hnd |]. split; [| apply NoDup_singleton].
    intros k Hk Hin. apply list_elem_of_singleton in Hin as ->.
    apply remoteGet_None in Hg. contradiction.
  - apply Forall_app. split; [exact Hne |]. repeat constructor. exact Hu.
Qed.

Lemma storeOk_onRemoteCtx (cm : CanvasManager) (u : string)
  (f : Canvas2D.Canvas -> Canvas2D.Canvas) :
  storeOk cm -> storeOk (onRemoteCtx u f cm).
Proof.
  unfold storeOk, onRemoteCtx. cbn [remoteCanvases set_remoteCanvases].
  rewrite remoteAlter_keys. trivial.
Qed.

Lemma storeOk_same_store (cm cm' : CanvasManager) :
  remoteCanvases cm' = remoteCanvases cm -> storeOk cm -> storeOk cm'.
Proof. unfold storeOk. intros ->. trivial. Qed.

Lemma truthyId_nonempty (d : Wire.Data) (A : string) :
  Wire.truthyId d = Some A -> Wire.userId d = Some A /\ Canvas2D.nonempty A = true.
Proof.
  unfold Wire.truthyId. destruct (Wire.userId d) as [u |]; [| discriminate].
  destruct (Canvas2D.nonempty u) eqn:E; [| discriminate].
  intros [= <-]. auto.
Qed.

(** X1. After [composeLayers] every pixel of the visible canvas carries
    the paint of the topmost layer that has paint there, the remote
    layers lying over the user's in the order they were created, and is
    transparent where no layer has paint.  Nothing but the canvas
    changes, and composing twice is composing once. *)
Theorem composed_canvas_shows_topmost (cm : CanvasManager) :
  (forall p, canvas (composeLayers cm) !! p = snd <$> shown cm p)
  /\ (forall p,
        canvas (composeLayers cm) !! p = None
        <-> Canvas2D.bitmap (userCanvas cm) !! p = None
            /\ Forall (fun e => Canvas2D.bitmap e.2 !! p = None) (remoteCanvases cm))
  /\ userCanvas (composeLayers cm) = userCanvas cm
  /\ remoteCanvases (composeLayers cm) = remoteCanvases cm
  /\ undoStack (composeLayers cm) = undoStack cm
  /\ redoStack (composeLayers cm) = redoStack cm
  /\ composeLayers (composeLayers cm) = composeLayers cm.
Proof.
  split; [apply composeLayers_shown |].
  split; [| repeat split].
  intros p. rewrite composeLayers_shown. unfold shown, layersTopDown.
  rewrite topAt_app.
  assert (forall l : list (string * Canvas2D.Canvas),
             topAt p (rev (map tagRemote l)) = None
             <-> Forall (fun e => Canvas2D.bitmap e.2 !! p = None) l) as Hrem.
  { induction l as [| e l IH]; [split; [constructor | reflexivity] |].
    cbn [map rev]. rewrite topAt_app, Forall_cons. cbn [topAt tagRemote fst snd].
    destruct (topAt p (rev (map tagRemote l))) eqn:Ht.
    - split; [discriminate | intros [_ Hl]; apply IH in Hl; discriminate].
    - destruct (Canvas2D.bitmap e.2 !! p).
      + split; [discriminate | intros [[=] _]].
      + split; [intros _; split; [reflexivity | apply IH; reflexivity] | reflexivity]. }
  destruct (topAt p (rev (map tagRemote (remoteCanvases cm)))) eqn:Ht.
  - cbn. split; [discriminate | intros [_ Hl]; apply Hrem in Hl; congruence].
  - cbn [topAt]. destruct (Canvas2D.bitmap (userCanvas cm) !! p); cbn.
    + split; [discriminate | intros [[=] _]].
    + split; [intros _; split; [reflexivity | apply Hrem, Ht] | reflexivity].
Qed.

(** X2. [getOrCreateRemoteCanvas] is idempotent.  A user without a layer
    gets a blank one, put last (so topmost) in the map; a user with a
    layer keeps it and the manager is returned as it was.  No other
    user's layer changes, and neither does what the layers show. *)
Theorem getOrCreateRemoteCanvas_contract (cm : CanvasManager) (u : string) :
  remoteGet u (remoteCanvases (getOrCreateRemoteCanvas cm u))
  = Some (default Canvas2D.createCanvas (remoteGet u (remoteCanvases cm)))
  /\ (remoteGet u (remoteCanvases cm) = None ->
      remoteCanvases (getOrCreateRemoteCanvas cm u)
      = remoteCanvases cm ++ [(u, Canvas2D.createCanvas)])
  /\ (is_Some (remoteGet u (remoteCanvases cm)) -> getOrCreateRemoteCanvas cm u = cm)
  /\ (forall v, v <> u ->
        remoteGet v (remoteCanvases (getOrCreateRemoteCanvas cm u))
        = remoteGet v (remoteCanvases cm))
  /\ (forall p, shown (getOrCreateRemoteCanvas cm u) p = shown cm p)
  /\ getOrCreateRemoteCanvas (getOrCreateRemoteCanvas cm u) u
     = getOrCreateRemoteCanvas cm u.
Proof.
  split; [apply getOrCreate_get |].
  split; [intros Hn; unfold getOrCreateRemoteCanvas; rewrite Hn; reflexivity |].
  split; [intros [c Hc]; unfold getOrCreateRemoteCanvas; rewrite Hc; reflexivity |].
  split; [intros v Hv; apply getOrCreate_other; congruence |].
  split; [intros p; apply shown_getOrCreate |].
  unfold getOrCreateRemoteCanvas at 1. rewrite getOrCreate_get. reflexivity.
Qed.

(** ** What an inbound drawing event is made of *)

Section DrawingShape.
Context `{!Canvas2D.Rasterizer}.

(** For any mode and type, a drawing event of [A] is a function run on
    [A]'s canvas (created if need be), followed or not by a
    recomposition. *)
Lemma applyRemoteDrawing_shape (cm : CanvasManager) (d : Wire.Data) (A : string) :
  Wire.truthyId d = Some A ->
  exists f,
    stateOf (applyRemoteDrawing cm d) = onRemoteCtx A f (getOrCreateRemoteCanvas cm A)
    \/ stateOf (applyRemoteDrawing cm d)
       = composeLayers (onRemoteCtx A f (getOrCreateRemoteCanvas cm A)).
Proof.
  intros Hid. unfold applyRemoteDrawing. rewrite Hid. cbv zeta.
  destruct (decide (Wire.mode d = "eraser"));
    (destruct (decide (Wire.type d = "start"));
     [| destruct (decide (Wire.type d = "move"));
        [| destruct (decide (Wire.type d = "end"))]]);
    try destruct (Wire.pos d); cbn [stateOf]; rewrite !onRemoteCtx_fuse;
    eexists; first [left; reflexivity | right; reflexivity].
Qed.

Lemma applyRemoteDrawing_frame (cm : CanvasManager) (d : Wire.Data) :
  let cm' := stateOf (applyRemoteDrawing cm d) in
  userCanvas cm' = userCanvas cm
  /\ undoStack cm' = undoStack cm
  /\ redoStack cm' = redoStack cm
  /\ drawing cm' = drawing cm
  /\ (forall B, Wire.truthyId d <> Some B ->
        remoteGet B (remoteCanvases cm') = remoteGet B (remoteCanvases cm)).
Proof.
  cbv zeta. destruct (Wire.truthyId d) as [A |] eqn:Hid.
  - destruct (applyRemoteDrawing_shape cm d A Hid) as [f Hs].
    destruct (remote_step_frame cm A f) as (Hu & Ho & _ & Hun & Hre).
    assert (drawing (onRemoteCtx A f (getOrCreateRemoteCanvas cm A)) = drawing cm) as Hd.
    { unfold getOrCreateRemoteCanvas.
      destruct (remoteGet A (remoteCanvases cm)); reflexivity. }
    destruct Hs as [-> | ->]; cbn [composeLayers userCanvas undoStack redoStack drawing
                                   remoteCanvases set_canvas];
      (repeat split; try assumption; intros B HB; apply Ho; congruence).
  - rewrite (drawing_without_userId_dropped cm d Hid). repeat split.
Qed.

Lemma storeOk_applyRemoteDrawing (cm : CanvasManager) (d : Wire.Data) :
  storeOk cm -> storeOk (stateOf (applyRemoteDrawing cm d)).
Proof.
  intros Hok. destruct (Wire.truthyId d) as [A |] eqn:Hid.
  - destruct (truthyId_nonempty d A Hid) as [_ Hne].
    destruct (applyRemoteDrawing_shape cm d A Hid) as [f [-> | ->]];
      [| apply (storeOk_same_store (onRemoteCtx A f (getOrCreateRemoteCanvas cm A)));
         [reflexivity |]];
      apply storeOk_onRemoteCtx, storeOk_getOrCreate; assumption.
  - rewrite (drawing_without_userId_dropped cm d Hid). exact Hok.
Qed.

End DrawingShape.

(** ** What the other inbound operations are made of *)

Lemma updateRemoteCanvas_shape (cm : CanvasManager) (userId : option string)
  (dataUrl : option Canvas2D.DataUrl) :
  updateRemoteCanvas cm userId dataUrl
  = match userId, dataUrl with
    | Some u, Some d =>
        if Canvas2D.nonempty u && Canvas2D.truthyUrl d then
          match Canvas2D.loadImage d with
          | Some img =>
              composeLayers
                (onRemoteCtx u
                   (fun c =>
                      Canvas2D.set_bitmap img
                        (Canvas2D.set_globalCompositeOperation Canvas2D.SourceOver c))
                   (getOrCreateRemoteCanvas cm u))
          | None =>
              error "Failed to load image for remote canvas update"
                (getOrCreateRemoteCanvas cm u)
          end
        else warn "updateRemoteCanvas called with invalid parameters" cm
    | _, _ => warn "updateRemoteCanvas called with invalid parameters" cm
    end.
Proof.
  unfold updateRemoteCanvas. destruct userId as [u |], dataUrl as [d |]; try reflexivity.
  destruct (Canvas2D.nonempty u && Canvas2D.truthyUrl d); cbn [negb]; [| reflexivity].
  destruct (Canvas2D.loadImage d) as [img |]; [| reflexivity].
  cbv zeta. rewrite !onRemoteCtx_fuse. f_equal. unfold onRemoteCtx. f_equal.
  generalize (remoteCanvases (getOrCreateRemoteCanvas cm u)). intros l.
  induction l as [| [k c] l IH]; [reflexivity |].
  cbn [remoteAlter]. destruct (decide (k = u)); [| rewrite IH; reflexivity].
  f_equal. f_equal. unfold Canvas2D.drawImage, Canvas2D.clearRect. cbn.
  unfold Canvas2D.source_over. rewrite (right_id_L ∅ (∪)). reflexivity.
Qed.

Lemma storeOk_updateRemoteCanvas (cm : CanvasManager) (userId : option string)
  (dataUrl : option Canvas2D.DataUrl) :
  storeOk cm -> storeOk (updateRemoteCanvas cm userId dataUrl).
Proof.
  intros Hok. rewrite updateRemoteCanvas_shape.
  destruct userId as [u |], dataUrl as [d |]; try exact Hok.
  destruct (Canvas2D.nonempty u) eqn:Hu; cbn [andb]; [| exact Hok].
  destruct (Canvas2D.truthyUrl d); [| exact Hok].
  destruct (Canvas2D.loadImage d).
  - match goal with
    | |- storeOk (composeLayers ?x) => apply (storeOk_same_store x); [reflexivity |]
    end.
    apply storeOk_onRemoteCtx, storeOk_getOrCreate; assumption.
  - apply (storeOk_same_store (getOrCreateRemoteCanvas cm u)); [reflexivity |].
    apply storeOk_getOrCreate; assumption.
Qed.

Lemma storeOk_clearRemoteCanvas (cm : CanvasManager) (userId : option string) :
  storeOk cm -> storeOk (clearRemoteCanvas cm userId).
Proof.
  intros Hok. unfold clearRemoteCanvas. destruct userId as [u |]; [| exact Hok].
  destruct (Canvas2D.nonempty u); cbn [negb]; [| exact Hok].
  destruct (remoteGet u (remoteCanvases cm)); [| exact Hok].
  apply (storeOk_same_store (onRemoteCtx u Canvas2D.clearRect cm)); [reflexivity |].
  apply storeOk_onRemoteCtx, Hok.
Qed.

Lemma storeOk_removeRemoteUser (cm : CanvasManager) (u : string) :
  storeOk cm -> storeOk (removeRemoteUser cm u).
Proof.
  intros [Hnd Hne]. unfold removeRemoteUser.
  destruct (remoteGet u (remoteCanvases cm)); [| split; assumption].
  unfold storeOk.
  cbn [composeLayers remoteCanvases set_canvas set_remoteCanvases].
  split; [apply remoteDelete_NoDup, Hnd |].
  apply Forall_forall. intros k Hk.
  apply (proj1 (Forall_forall _ _) Hne). eapply remoteDelete_keys_subset, Hk.
Qed.

Lemma applyDataUrl_frame (cm : CanvasManager) (u : Canvas2D.DataUrl) :
  remoteCanvases (applyDataUrl cm u).2 = remoteCanvases cm
  /\ drawing (applyDataUrl cm u).2 = drawing cm
  /\ mode (applyDataUrl cm u).2 = mode cm.
Proof. unfold applyDataUrl. destruct (Canvas2D.loadImage u); repeat split. Qed.

Lemma undo_remote (cm : CanvasManager) :
  remoteCanvases (undo cm).2 = remoteCanvases cm.
Proof.
  destruct (decide (undoStack cm = [])) as [He | Hne].
  - rewrite (undo_empty cm He). reflexivity.
  - destruct (nonempty_snoc _ Hne) as (rest & top & Hs).
    rewrite (undo_snoc cm rest top Hs). cbv zeta. cbn [snd].
    rewrite (proj1 (applyDataUrl_frame _ _)). reflexivity.
Qed.

Lemma redo_remote (cm : CanvasManager) :
  remoteCanvases (redo cm).2 = remoteCanvases cm.
Proof.
  destruct (decide (redoStack cm = [])) as [He | Hne].
  - rewrite (redo_empty cm He). reflexivity.
  - destruct (nonempty_snoc _ Hne) as (rest & top & Hs).
    rewrite (redo_snoc cm rest top Hs). cbv zeta. cbn [snd].
    rewrite (proj1 (applyDataUrl_frame _ _)). reflexivity.
Qed.

Section LocalFrame.
Context `{!Canvas2D.Rasterizer}.

Lemma perform_remote (cm : CanvasManager) (a : Action) :
  remoteCanvases (perform cm a) = remoteCanvases cm.
Proof.
  destruct a as [g | | |]; cbn [perform].
  - unfold drawGesture.
    rewrite handlePointerUp_remote, moves_remote. apply handlePointerDown_remote.
  - destruct (pushUndo_fields cm) as (_ & _ & Hr & _). exact Hr.
  - apply undo_remote.
  - apply redo_remote.
Qed.

(** X11. Nothing the local user does (a stroke, [clear], [undo], [redo],
    whether it succeeds or not) creates, removes or changes a remote
    layer. *)
Theorem local_actions_leave_remote_layers (actions : list Action) (cm : CanvasManager) :
  remoteCanvases (fold_left perform actions cm) = remoteCanvases cm.
Proof.
  revert cm. induction actions as [| a actions IH]; intros cm; [reflexivity |].
  cbn [fold_left]. rewrite IH. apply perform_remote.
Qed.

End LocalFrame.

(** ** Inbound events: what they keep and what they leave alone *)

Lemma getOrCreate_fields (cm : CanvasManager) (u : string) :
  userCanvas (getOrCreateRemoteCanvas cm u) = userCanvas cm
  /\ undoStack (getOrCreateRemoteCanvas cm u) = undoStack cm
  /\ redoStack (getOrCreateRemoteCanvas cm u) = redoStack cm.
Proof.
  unfold getOrCreateRemoteCanvas.
  destruct (remoteGet u (remoteCanvases cm)); repeat split.
Qed.

Lemma updateRemoteCanvas_frame (cm : CanvasManager) (userId : option string)
  (dataUrl : option Canvas2D.DataUrl) :
  userCanvas (updateRemoteCanvas cm userId dataUrl) = userCanvas cm
  /\ undoStack (updateRemoteCanvas cm userId dataUrl) = undoStack cm
  /\ redoStack (updateRemoteCanvas cm userId dataUrl) = redoStack cm.
Proof.
  rewrite updateRemoteCanvas_shape.
  destruct userId as [u |], dataUrl as [d |]; try (repeat split; fail).
  destruct (getOrCreate_fields cm u) as (H1 & H2 & H3).
  destruct (Canvas2D.nonempty u && Canvas2D.truthyUrl d); [| repeat split].
  destruct (Canvas2D.loadImage d); repeat split; assumption.
Qed.

Lemma clearRemoteCanvas_frame (cm : CanvasManager) (userId : option string) :
  userCanvas (clearRemoteCanvas cm userId) = userCanvas cm
  /\ undoStack (clearRemoteCanvas cm userId) = undoStack cm
  /\ redoStack (clearRemoteCanvas cm userId) = redoStack cm.
Proof.
  unfold clearRemoteCanvas. destruct userId as [u |]; [| repeat split].
  destruct (Canvas2D.nonempty u); cbn [negb]; [| repeat split].
  destruct (remoteGet u (remoteCanvases cm)); repeat split.
Qed.

Lemma removeRemoteUser_frame (cm : CanvasManager) (u : string) :
  userCanvas (removeRemoteUser cm u) = userCanvas cm
  /\ undoStack (removeRemoteUser cm u) = undoStack cm
  /\ redoStack (removeRemoteUser cm u) = redoStack cm.
Proof.
  unfold removeRemoteUser. destruct (remoteGet u (remoteCanvases cm)); repeat split.
Qed.

Section InboundFrame.
Context `{!Canvas2D.Rasterizer}.

(** X3. The remote layers always form a map keyed by non-empty user
    ids: the constructor starts with none, and no inbound event (drawing,
    undo, redo, clear, canvas state, user left) and no local action ever
    leaves two layers under one id or a layer under the empty id. *)
Theorem layer_store_stays_a_map :
  (forall left top, storeOk (newCanvasManager left top))
  /\ (forall (app : App.t) (data : Wire.Data) (a : Action),
        storeOk (App.canvasManager app) ->
        storeOk (App.canvasManager (stateOf (App.socketDrawing app data)))
        /\ storeOk (App.canvasManager (App.socketUndo app data))
        /\ storeOk (App.canvasManager (App.socketRedo app data))
        /\ storeOk (App.canvasManager (App.socketClearCanvas app data))
        /\ storeOk (App.canvasManager (App.socketCanvasState app data))
        /\ storeOk (App.canvasManager (App.socketUserLeft app data))
        /\ storeOk (perform (App.canvasManager app) a)).
Proof.
  split; [intros left top; split; constructor |].
  intros app data a Hok.
  assert (storeOk (App.canvasManager (App.socketUndo app data))) as Hundo.
  { unfold App.socketUndo, App.onUndo.
    destruct (WebSocketClient.notSelf (App.wsClient app) data); [| exact Hok].
    destruct (Wire.truthyData data); [| exact Hok].
    destruct (Wire.truthyId data); [| exact Hok].
    apply storeOk_updateRemoteCanvas, Hok. }
  split; [| split; [exact Hundo | split; [exact Hundo | split; [| split; [| split]]]]].
  - unfold App.socketDrawing, App.onDrawing.
    destruct (WebSocketClient.notSelf (App.wsClient app) data); [| exact Hok].
    pose proof (storeOk_applyRemoteDrawing (App.canvasManager app) data Hok) as Hd.
    destruct (applyRemoteDrawing (App.canvasManager app) data); exact Hd.
  - unfold App.socketClearCanvas, App.onClearCanvas.
    destruct (negb _); [| exact Hok].
    apply storeOk_clearRemoteCanvas, Hok.
  - unfold App.socketCanvasState, App.onCanvasState.
    destruct (Wire.truthyData data); [| exact Hok].
    apply (storeOk_same_store (App.canvasManager app)); [| exact Hok].
    apply applyDataUrl_frame.
  - unfold App.socketUserLeft, App.onUserLeave.
    destruct (Wire.userId data); [| exact Hok].
    apply storeOk_removeRemoteUser, Hok.
  - apply (storeOk_same_store (App.canvasManager app)); [| exact Hok].
    apply perform_remote.
Qed.

(** X12. No inbound drawing, undo, redo, clear or user-left event,
    whatever its content, changes the user's own layer or the undo and
    redo stacks: what others do is never undone or redone locally.  (The
    canvas-state event is the one exception: it overwrites the user's
    layer.) *)
Theorem inbound_events_leave_own_layer_and_history (app : App.t) (data : Wire.Data) :
  let cm := App.canvasManager app in
  let same (app' : App.t) :=
    userCanvas (App.canvasManager app') = userCanvas cm
    /\ undoStack (App.canvasManager app') = undoStack cm
    /\ redoStack (App.canvasManager app') = redoStack cm in
  same (stateOf (App.socketDrawing app data))
  /\ same (App.socketUndo app data)
  /\ same (App.socketRedo app data)
  /\ same (App.socketClearCanvas app data)
  /\ same (App.socketUserLeft app data).
Proof.
  cbv zeta.
  assert (userCanvas (App.canvasManager (App.socketUndo app data))
          = userCanvas (App.canvasManager app)
          /\ undoStack (App.canvasManager (App.socketUndo app data))
             = undoStack (App.canvasManager app)
          /\ redoStack (App.canvasManager (App.socketUndo app data))
             = redoStack (App.canvasManager app)) as Hundo.
  { unfold App.socketUndo, App.onUndo.
    destruct (WebSocketClient.notSelf (App.wsClient app) data); [| repeat split].
    destruct (Wire.truthyData data); [| repeat split].
    destruct (Wire.truthyId data); [| repeat split].
    apply updateRemoteCanvas_frame. }
  split; [| split; [exact Hundo | split; [exact Hundo | split]]].
  - unfold App.socketDrawing, App.onDrawing.
    destruct (WebSocketClient.notSelf (App.wsClient app) data); [| repeat split].
    destruct (applyRemoteDrawing_frame (App.canvasManager app) data)
      as (H1 & H2 & H3 & _).
    destruct (applyRemoteDrawing (App.canvasManager app) data); repeat split; assumption.
  - unfold App.socketClearCanvas, App.onClearCanvas.
    destruct (negb _); [| repeat split]. apply clearRemoteCanvas_frame.
  - unfold App.socketUserLeft, App.onUserLeave.
    destruct (Wire.userId data); [| repeat split]. apply removeRemoteUser_frame.
Qed.

End InboundFrame.

(** ** A user leaves *)

Lemma topAt_delete (p : Z * Z) (b : Author) (col : string) (u : string) :
  b <> RemoteUser u ->
  forall (l : list (string * Canvas2D.Canvas)) (bottom : list (Author * gmap (Z * Z) string)),
    topAt p (rev (map tagRemote l) ++ bottom) = Some (b, col) ->
    topAt p (rev (map tagRemote (remoteDelete u l)) ++ bottom) = Some (b, col).
Proof.
  intros Hb l. induction l as [| [k c] l IH]; intros bottom; [trivial |].
  cbn [remoteDelete]. destruct (decide (k = u)) as [-> | Hne].
  - cbn [map rev]. rewrite <- !app_assoc, !topAt_app.
    destruct (topAt p (rev (map tagRemote l))); [trivial |].
    cbn [app topAt tagRemote fst snd].
    destruct (Canvas2D.bitmap c !! p); [| trivial].
    intros [= <- _]. contradiction Hb. reflexivity.
  - cbn [map rev]. rewrite <- !app_assoc. apply IH.
Qed.

(** X4. When a user leaves, their layer and no other is removed from the
    map; a user who had no layer leaves the manager exactly as it was.
    The canvas is recomposed from the layers that remain, and whatever
    another author's layer showed is still shown. *)
Theorem user_left_removes_only_their_layer (app : App.t) (data : Wire.Data) (u : string) :
  Wire.userId data = Some u ->
  NoDup (map fst (remoteCanvases (App.canvasManager app))) ->
  let cm := App.canvasManager app in
  let cm' := App.canvasManager (App.socketUserLeft app data) in
  remoteGet u (remoteCanvases cm') = None
  /\ (forall v, v <> u ->
        remoteGet v (remoteCanvases cm') = remoteGet v (remoteCanvases cm))
  /\ (remoteGet u (remoteCanvases cm) = None -> cm' = cm)
  /\ (is_Some (remoteGet u (remoteCanvases cm)) ->
      forall p, canvas cm' !! p = snd <$> shown cm' p)
  /\ (forall p b col,
        b <> RemoteUser u -> shown cm p = Some (b, col) -> shown cm' p = Some (b, col)).
Proof.
  intros Hu Hnd cm cm'. subst cm'.
  unfold App.socketUserLeft, App.onUserLeave. rewrite Hu.
  cbn [App.canvasManager App.set_canvasManager]. fold cm.
  unfold removeRemoteUser.
  destruct (remoteGet u (remoteCanvases cm)) as [c |] eqn:Hg.
  - split; [apply remoteGet_delete_eq, Hnd |].
    split; [intros v Hv; apply remoteGet_delete_ne; congruence |].
    split; [discriminate |].
    split; [intros _ p; rewrite composeLayers_shown; reflexivity |].
    intros p b col Hb Hs. rewrite shown_composeLayers.
    unfold shown, layersTopDown. cbn [remoteCanvases set_remoteCanvases userCanvas].
    apply topAt_delete; assumption.
  - repeat split; try assumption; try tauto. intros [? [=]].
Qed.

(** ** Snapshots from peers *)

Lemma remoteBitmap_composeLayers (cm : CanvasManager) (u : string) :
  remoteBitmap (composeLayers cm) u = remoteBitmap cm u.
Proof. reflexivity. Qed.

Lemma remote_snapshot_replaces_sender_layer_aux (app : App.t) (data : Wire.Data)
  (A : string) (img : gmap (Z * Z) string) :
  Wire.truthyId data = Some A ->
  A <> WebSocketClient.userId (App.wsClient app) ->
  Wire.canvasData data = Some (Canvas2D.PngImage img) ->
  let cm := App.canvasManager app in
  let cm' := App.canvasManager (App.socketUndo app data) in
  remoteBitmap cm' A = img
  /\ (forall B, B <> A ->
        remoteGet B (remoteCanvases cm') = remoteGet B (remoteCanvases cm))
  /\ (forall p, canvas cm' !! p = snd <$> shown cm' p).
Proof.
  intros Hid Hother Hdata cm cm'. subst cm'.
  destruct (truthyId_nonempty data A Hid) as [Hu Hne].
  unfold App.socketUndo, WebSocketClient.notSelf.
  rewrite bool_decide_eq_false_2 by (rewrite Hu; congruence).
  cbn [negb]. unfold App.onUndo, Wire.truthyData.
  rewrite Hid, Hdata, Hu. cbn [Canvas2D.truthyUrl App.canvasManager App.set_canvasManager].
  fold cm. rewrite updateRemoteCanvas_shape, Hne.
  cbn [Canvas2D.truthyUrl andb Canvas2D.loadImage].
  match goal with |- context [onRemoteCtx A ?g _] => set (f := g) end.
  destruct (remote_step_frame cm A f) as (_ & Ho & Hb & _).
  split; [rewrite remoteBitmap_composeLayers, Hb; reflexivity |].
  split; [exact Ho |]. intros p. rewrite composeLayers_shown. reflexivity.
Qed.

(** X5. An undo or redo event of another user [A] that carries a
    decodable snapshot makes [A]'s layer (created if [A] had none) hold
    exactly the snapshot's pixels; every other remote layer is unchanged
    and the canvas is recomposed.  The two events are handled alike, and
    one whose [userId] is the client's own is discarded. *)
Theorem remote_snapshot_replaces_sender_layer (app : App.t) (data : Wire.Data) :
  (Wire.userId data = Some (WebSocketClient.userId (App.wsClient app)) ->
   App.socketUndo app data = app /\ App.socketRedo app data = app)
  /\ App.socketRedo app data = App.socketUndo app data
  /\ (forall A img,
        Wire.truthyId data = Some A ->
        A <> WebSocketClient.userId (App.wsClient app) ->
        Wire.canvasData data = Some (Canvas2D.PngImage img) ->
        let cm := App.canvasManager app in
        let cm' := App.canvasManager (App.socketUndo app data) in
        remoteBitmap cm' A = img
        /\ (forall B, B <> A ->
              remoteGet B (remoteCanvases cm') = remoteGet B (remoteCanvases cm))
        /\ (forall p, canvas cm' !! p = snd <$> shown cm' p)).
Proof.
  split; [| split; [reflexivity |]].
  - intros Hself. unfold App.socketRedo, App.socketUndo, WebSocketClient.notSelf.
    rewrite bool_decide_eq_true_2 by exact Hself. split; reflexivity.
  - intros A img. apply remote_snapshot_replaces_sender_layer_aux.
Qed.

(** ** What a peer ends up with *)

Lemma sentSince_emit (ws : WebSocketClient.t) (event : string) (payload : Wire.Data) :
  sentSince ws (WebSocketClient.emit ws event payload) = [(event, payload)].
Proof.
  unfold sentSince, WebSocketClient.emit. cbn [WebSocketClient.sent].
  apply drop_app_length.
Qed.

(** X6. When a connected user's undo (or redo) succeeds, exactly one
    message goes out, and a peer that handles it ends up with that
    user's layer holding the very pixels the user's own layer now has:
    those of the restored snapshot. *)
Theorem undo_broadcast_converges (a b : App.t) (rest : list Canvas2D.DataUrl)
  (img : gmap (Z * Z) string) :
  WebSocketClient.connected (App.wsClient a) = true ->
  Canvas2D.nonempty (WebSocketClient.userId (App.wsClient a)) = true ->
  WebSocketClient.userId (App.wsClient a) <> WebSocketClient.userId (App.wsClient b) ->
  (undoStack (App.canvasManager a) = rest ++ [Canvas2D.PngImage img] ->
   let a' := (App.undoClick a).2 in
   exists m,
     sentSince (App.wsClient a) (App.wsClient a') = [("undo", m)]
     /\ remoteBitmap (App.canvasManager (App.socketUndo b m))
          (WebSocketClient.userId (App.wsClient a))
        = Canvas2D.bitmap (userCanvas (App.canvasManager a'))
     /\ Canvas2D.bitmap (userCanvas (App.canvasManager a')) = img)
  /\ (redoStack (App.canvasManager a) = rest ++ [Canvas2D.PngImage img] ->
      let a' := (App.redoClick a).2 in
      exists m,
        sentSince (App.wsClient a) (App.wsClient a') = [("redo", m)]
        /\ remoteBitmap (App.canvasManager (App.socketRedo b m))
             (WebSocketClient.userId (App.wsClient a))
           = Canvas2D.bitmap (userCanvas (App.canvasManager a'))
        /\ Canvas2D.bitmap (userCanvas (App.canvasManager a')) = img).
Proof.
  intros Hconn Hne Hdiff.
  assert (forall m : Wire.Data,
             m = WebSocketClient.envelope (App.wsClient a) (Some (Canvas2D.PngImage img)) ->
             remoteBitmap (App.canvasManager (App.socketUndo b m))
               (WebSocketClient.userId (App.wsClient a)) = img) as Hpeer.
  { intros m ->.
    destruct (remote_snapshot_replaces_sender_layer_aux b
                (WebSocketClient.envelope (App.wsClient a) (Some (Canvas2D.PngImage img)))
                (WebSocketClient.userId (App.wsClient a)) img) as [Hb _]; try reflexivity;
      try assumption.
    unfold Wire.truthyId, WebSocketClient.envelope. cbn [Wire.userId].
    rewrite Hne. reflexivity. }
  split; intros Hs a'; subst a'.
  - destruct (undo_success _ rest img Hs) as (Hr & _ & _ & Hbits & _).
    unfold App.undoClick. cbv zeta. rewrite Hr.
    cbn [snd App.wsClient App.canvasManager App.set_canvasManager App.set_wsClient].
    unfold WebSocketClient.sendUndo. rewrite Hconn. cbn [negb].
    eexists. split; [apply sentSince_emit |].
    rewrite Hbits. split; [| reflexivity].
    apply Hpeer. unfold getCanvasData, Canvas2D.toDataURL. rewrite Hbits. reflexivity.
  - destruct (redo_success _ rest img Hs) as (Hr & _ & _ & Hbits & _).
    unfold App.redoClick. cbv zeta. rewrite Hr.
    cbn [snd App.wsClient App.canvasManager App.set_canvasManager App.set_wsClient].
    unfold WebSocketClient.sendRedo. rewrite Hconn. cbn [negb].
    eexists. split; [apply sentSince_emit |].
    rewrite Hbits. split; [| reflexivity].
    change (App.socketRedo b) with (App.socketUndo b).
    apply Hpeer. unfold getCanvasData, Canvas2D.toDataURL. rewrite Hbits. reflexivity.
Qed.

(** X7. When a connected user clears, exactly one clear-canvas message
    goes out; the user's own layer is blank, and a peer that handles the
    message ends up with a blank layer for that user as well. *)
Theorem clear_broadcast_converges (a b : App.t) :
  WebSocketClient.connected (App.wsClient a) = true ->
  Canvas2D.nonempty (WebSocketClient.userId (App.wsClient a)) = true ->
  WebSocketClient.userId (App.wsClient a) <> App.userId b ->
  let a' := App.clearClick a in
  exists m,
    sentSince (App.wsClient a) (App.wsClient a') = [("clear-canvas", m)]
    /\ Canvas2D.bitmap (userCanvas (App.canvasManager a')) = ∅
    /\ remoteBitmap (App.canvasManager (App.socketClearCanvas b m))
         (WebSocketClient.userId (App.wsClient a)) = ∅.
Proof.
  intros Hconn Hne Hdiff a'. subst a'.
  unfold App.clearClick. cbv zeta.
  cbn [App.wsClient App.canvasManager App.set_canvasManager App.set_wsClient].
  unfold WebSocketClient.clearCanvas. rewrite Hconn. cbn [negb].
  eexists. split; [apply sentSince_emit |]. split; [reflexivity |].
  set (A := WebSocketClient.userId (App.wsClient a)) in *.
  unfold App.socketClearCanvas, App.onClearCanvas, WebSocketClient.envelope.
  cbn [Wire.userId]. fold A.
  rewrite bool_decide_eq_false_2 by congruence.
  cbn [negb App.canvasManager App.set_canvasManager].
  unfold clearRemoteCanvas. rewrite Hne. cbn [negb]. unfold remoteBitmap.
  destruct (remoteGet A (remoteCanvases (App.canvasManager b))) as [c |] eqn:Hg.
  - cbn [composeLayers remoteCanvases set_canvas onRemoteCtx set_remoteCanvases].
    rewrite remoteGet_alter_eq, Hg. reflexivity.
  - rewrite Hg. reflexivity.
Qed.

(** ** Undoing the last action *)

Section UndoRestores.
Context `{!Canvas2D.Rasterizer}.

Lemma drawGesture_snapshot (cm : CanvasManager) (g : Gesture) :
  isPrimary (down g) = true ->
  exists rest,
    undoStack (drawGesture cm g) = rest ++ [Canvas2D.toDataURL (userCanvas cm)].
Proof.
  intros Hp. unfold drawGesture.
  destruct (handlePointerDown_primary cm (down g) Hp) as (_ & Hu & _ & _).
  destruct (moves_history (moves g) (handlePointerDown cm (down g))) as (Hu' & _ & _).
  rewrite handlePointerUp_undoStack, Hu', Hu. apply pushUndo_top.
Qed.

(** X9. Undo right after a stroke gives the user's layer back the pixels
    it had before the pointer went down, and undo right after [clear]
    gives back the pixels that were cleared; in both cases it resolves to
    [true]. *)
Theorem undo_restores_previous_pixels (cm : CanvasManager) (g : Gesture) :
  (isPrimary (down g) = true ->
   (undo (drawGesture cm g)).1 = Resolved true
   /\ Canvas2D.bitmap (userCanvas (undo (drawGesture cm g)).2)
      = Canvas2D.bitmap (userCanvas cm))
  /\ Canvas2D.bitmap (userCanvas (clear cm)) = ∅
  /\ (undo (clear cm)).1 = Resolved true
  /\ Canvas2D.bitmap (userCanvas (undo (clear cm)).2) = Canvas2D.bitmap (userCanvas cm).
Proof.
  split; [| split; [reflexivity |]].
  - intros Hp. destruct (drawGesture_snapshot cm g Hp) as [rest Hs].
    destruct (undo_success _ rest _ Hs) as (H1 & _ & _ & H4 & _). auto.
  - destruct (clear_history cm) as [_ [rest Hs]].
    destruct (undo_success _ rest _ Hs) as (H1 & _ & _ & H4 & _). auto.
Qed.

(** X10. Starting from the constructor, after any sequence of whole
    actions (strokes, [clear], [undo], [redo]) the two stacks together
    hold at most [MAX_STACK] snapshots, every one of them decodes, and
    so [undo] succeeds whenever [undoStack] is not empty and [redo]
    whenever [redoStack] is not. *)
Theorem history_invariant_of_whole_actions (actions : list Action) (left top : Z) :
  let cm := fold_left perform actions (newCanvasManager left top) in
  (length (undoStack cm) + length (redoStack cm) <= MAX_STACK)%nat
  /\ snapshotsOnly cm
  /\ (undoStack cm <> [] -> (undo cm).1 = Resolved true)
  /\ (redoStack cm <> [] -> (redo cm).1 = Resolved true).
Proof.
  intros cm.
  pose proof (actions_snapshots actions _ (snapshotsOnly_new left top)) as Hs.
  fold cm in Hs.
  split; [| split; [exact Hs | split]].
  - apply history_bounded_whole_actions. cbn. unfold MAX_STACK. lia.
  - apply undo_succeeds_after_actions.
  - intros Hne. destruct Hs as [_ Hr].
    destruct (nonempty_snoc _ Hne) as (rest & u & Hu).
    rewrite Hu in Hr. apply Forall_app in Hr as [_ Hr].
    inversion Hr as [| ? ? [img Himg] _]; subst.
    destruct u as [img' |]; [| discriminate].
    apply (redo_success cm rest img' Hu).
Qed.

End UndoRestores.

(** ** A stroke, handler by handler *)

Lemma pushUndo_settings (cm : CanvasManager) :
  settings (pushUndo cm) = settings cm
  /\ emitted (pushUndo cm) = emitted cm
  /\ userCanvas (pushUndo cm) = userCanvas cm.
Proof.
  unfold pushUndo.
  destruct (MAX_STACK <=? length (undoStack cm))%nat; repeat split.
Qed.

Lemma settings_payload (cm cm' : CanvasManager) :
  settings cm' = settings cm ->
  drawPayload cm' = drawPayload cm
  /\ getPointerPos cm' = getPointerPos cm
  /\ onStateChange cm' = onStateChange cm.
Proof.
  unfold settings, drawPayload, getPointerPos. intros [= -> -> -> -> -> ->].
  repeat split.
Qed.

Lemma emitDrawEvent_emitted (cm : CanvasManager) (type : string) (pos : Canvas2D.Point) :
  emitted (emitDrawEvent cm type pos)
  = emitted cm ++ (if onStateChange cm then [drawPayload cm type pos] else [])
  /\ settings (emitDrawEvent cm type pos) = settings cm
  /\ userCanvas (emitDrawEvent cm type pos) = userCanvas cm
  /\ drawing (emitDrawEvent cm type pos) = drawing cm
  /\ lastPos (emitDrawEvent cm type pos) = lastPos cm.
Proof.
  unfold emitDrawEvent. destruct (onStateChange cm) eqn:E.
  - repeat split.
  - rewrite app_nil_r. repeat split.
Qed.

Lemma handlePointerDown_shape (cm : CanvasManager) (e : PointerEvent) :
  isPrimary e = true ->
  let p := getPointerPos cm e in
  userCanvas (handlePointerDown cm e)
  = Canvas2D.moveTo p
      (Canvas2D.beginPath
         (styleCtx (mode cm) (strokeColor cm) (lineWidth cm) (userCanvas cm)))
  /\ emitted (handlePointerDown cm e)
     = emitted cm ++ (if onStateChange cm then [drawPayload cm "start" p] else [])
  /\ settings (handlePointerDown cm e) = settings cm
  /\ drawing (handlePointerDown cm e) = true
  /\ lastPos (handlePointerDown cm e) = p.
Proof.
  intros Hp p. unfold isPrimary in Hp. unfold handlePointerDown.
  assert (match button e with Some b => negb (b =? 0) | None => false end = false) as ->.
  { destruct (button e); [rewrite Hp |]; reflexivity. }
  destruct (pushUndo_settings cm) as (Hs & He & Hu).
  set (cm0 := pushUndo cm) in *. clearbody cm0.
  unfold settings in Hs. injection Hs as Hm Hc Hw Ho Hl Ht.
  cbv zeta.
  match goal with |- context [emitDrawEvent ?c ?t ?q] =>
    destruct (emitDrawEvent_emitted c t q) as (E1 & E2 & E3 & E4 & E5);
    rewrite E1, E2, E3, E4, E5; clear E1 E2 E3 E4 E5
  end.
  unfold onUserCtx, styleCtx, drawPayload, settings, getPointerPos in *.
  subst p. cbn. rewrite ?Hm.
  destruct (decide (mode cm = "eraser")); cbn;
    rewrite ?Hm, ?Hc, ?Hw, ?Ho, ?Hl, ?Ht, ?He, ?Hu; repeat split.
Qed.

Lemma handlePointerUp_shape (cm : CanvasManager) (e : PointerEvent) :
  drawing cm = true ->
  userCanvas (handlePointerUp cm e) = Canvas2D.closePath (userCanvas cm)
  /\ emitted (handlePointerUp cm e)
     = emitted cm ++ (if onStateChange cm then [drawPayload cm "end" (lastPos cm)] else [])
  /\ settings (handlePointerUp cm e) = settings cm.
Proof.
  intros Hd. unfold handlePointerUp. rewrite Hd. cbn [negb]. cbv zeta.
  cbn [composeLayers userCanvas emitted set_canvas].
  match goal with |- context [emitDrawEvent ?c ?t ?q] =>
    destruct (emitDrawEvent_emitted c t q) as (E1 & E2 & E3 & _)
  end.
  split; [rewrite E3; reflexivity |].
  split; [rewrite E1; reflexivity |].
  unfold settings in *. cbn [composeLayers mode strokeColor lineWidth onStateChange
                             rectLeft rectTop set_canvas]. exact E2.
Qed.

Section StrokeShape.
Context `{!Canvas2D.Rasterizer}.

Lemma handlePointerMove_shape (cm : CanvasManager) (e : PointerEvent) :
  drawing cm = true ->
  let p := getPointerPos cm e in
  userCanvas (handlePointerMove cm e)
  = Canvas2D.stroke (Canvas2D.lineTo p (userCanvas cm))
  /\ emitted (handlePointerMove cm e)
     = emitted cm ++ (if onStateChange cm then [drawPayload cm "move" p] else [])
  /\ settings (handlePointerMove cm e) = settings cm
  /\ drawing (handlePointerMove cm e) = true
  /\ lastPos (handlePointerMove cm e) = p.
Proof.
  intros Hd p. unfold handlePointerMove. rewrite Hd. cbn [negb]. cbv zeta. fold p.
  match goal with |- context [emitDrawEvent ?c ?t ?q] =>
    destruct (emitDrawEvent_emitted c t q) as (E1 & E2 & E3 & E4 & E5);
    rewrite E1, E2, E3, E4, E5; clear E1 E2 E3 E4 E5
  end.
  repeat split. exact Hd.
Qed.

(** What a run of moves adds during a stroke. *)
Lemma moves_shape (es : list PointerEvent) (cm : CanvasManager) :
  drawing cm = true ->
  let cm' := fold_left handlePointerMove es cm in
  emitted cm'
  = emitted cm
    ++ (if onStateChange cm
        then map (fun e => drawPayload cm "move" (getPointerPos cm e)) es else [])
  /\ settings cm' = settings cm
  /\ drawing cm' = true
  /\ lastPos cm' = default (lastPos cm) (getPointerPos cm <$> last es).
Proof.
  revert cm. induction es as [| e es IH]; intros cm Hd; cbn [fold_left].
  - cbn. destruct (onStateChange cm); rewrite app_nil_r; repeat split; exact Hd.
  - destruct (handlePointerMove_shape cm e Hd) as (_ & He & Hs & Hd1 & Hl).
    destruct (IH _ Hd1) as (He' & Hs' & Hd' & Hl').
    destruct (settings_payload _ _ Hs) as (Hp1 & Hp2 & Hp3).
    split; [| split; [congruence | split; [exact Hd' |]]].
    + rewrite He', He, Hp1, Hp2, Hp3, <- app_assoc.
      destruct (onStateChange cm); reflexivity.
    + rewrite Hl', Hl, Hp2. destruct es as [| e' es]; [reflexivity |].
      rewrite last_cons_cons.
      destruct (last (e' :: es)) eqn:E; [reflexivity |].
      apply last_None in E. discriminate E.
Qed.

(** X14. With a listener attached, a stroke announces itself as one
    [start] at the pointer-down position, one [move] per pointer move in
    order, and one [end] at the last position reached, each carrying the
    mode, colour and width of the manager and canvas-relative
    coordinates; without a listener nothing is announced. *)
Theorem stroke_announces_start_moves_end (cm : CanvasManager) (g : Gesture) :
  isPrimary (down g) = true ->
  let p0 := getPointerPos cm (down g) in
  let pN := default p0 (getPointerPos cm <$> last (moves g)) in
  emitted (drawGesture cm g)
  = emitted cm
    ++ (if onStateChange cm then
          [drawPayload cm "start" p0]
          ++ map (fun e => drawPayload cm "move" (getPointerPos cm e)) (moves g)
          ++ [drawPayload cm "end" pN]
        else []).
Proof.
  intros Hp p0 pN. unfold drawGesture.
  destruct (handlePointerDown_shape cm (down g) Hp) as (_ & He0 & Hs0 & Hd0 & Hl0).
  destruct (settings_payload _ _ Hs0) as (Hp1 & Hp2 & Hp3).
  destruct (moves_shape (moves g) _ Hd0) as (He1 & Hs1 & Hd1 & Hl1).
  destruct (settings_payload _ _ Hs1) as (Hq1 & Hq2 & Hq3).
  destruct (handlePointerUp_shape _ (up g) Hd1) as (_ & He2 & _).
  rewrite He2, He1, He0, Hq1, Hq3, Hl1, Hl0, !Hp1, !Hp2, Hp3.
  fold p0. fold pN.
  destruct (onStateChange cm); rewrite <- !app_assoc; [reflexivity |].
  rewrite !app_nil_r. reflexivity.
Qed.

End StrokeShape.

(** ** Strokes through the application and the wire *)


Lemma sendDrawing_fold_offline (ds : list Wire.Data) (ws : WebSocketClient.t) :
  WebSocketClient.connected ws = false ->
  fold_left WebSocketClient.sendDrawing ds ws = ws.
Proof.
  intros Hc. induction ds as [| d ds IH]; [reflexivity |].
  cbn [fold_left]. unfold WebSocketClient.sendDrawing at 2. rewrite Hc. exact IH.
Qed.

Section AppStroke.
Context `{!Canvas2D.Rasterizer}.

Lemma appMoves_manager (es : list PointerEvent) (app : App.t) :
  App.canvasManager (fold_left App.pointerMove es app)
  = fold_left handlePointerMove es (App.canvasManager app).
Proof.
  revert app. induction es as [| e es IH]; intros app; [reflexivity |].
  cbn [fold_left]. rewrite IH. reflexivity.
Qed.

Lemma appGesture_manager (app : App.t) (g : Gesture) :
  App.canvasManager (appGesture app g) = drawGesture (App.canvasManager app) g.
Proof.
  unfold appGesture, drawGesture, App.pointerUp.
  cbn [App.forwardDraw App.canvasManager App.set_canvasManager App.set_wsClient].
  rewrite appMoves_manager. reflexivity.
Qed.

Lemma appMoves_offline (es : list PointerEvent) (app : App.t) :
  WebSocketClient.connected (App.wsClient app) = false ->
  App.wsClient (fold_left App.pointerMove es app) = App.wsClient app.
Proof.
  revert app. induction es as [| e es IH]; intros app Hc; [reflexivity |].
  cbn [fold_left].
  assert (App.wsClient (App.pointerMove app e) = App.wsClient app) as Hw.
  { unfold App.pointerMove, App.forwardDraw.
    cbn [App.wsClient App.canvasManager App.set_canvasManager App.set_wsClient].
    apply sendDrawing_fold_offline, Hc. }
  rewrite IH; [exact Hw | rewrite Hw; exact Hc].
Qed.

(** X8. Without a connection nothing is sent, yet every action still
    takes effect locally: a stroke, [clear], [undo] and [redo] change the
    canvas manager exactly as they do when connected, and the socket
    client is left as it was. *)
Theorem offline_actions_stay_local (app : App.t) (g : Gesture) :
  WebSocketClient.connected (App.wsClient app) = false ->
  let cm := App.canvasManager app in
  (App.wsClient (appGesture app g) = App.wsClient app
   /\ App.canvasManager (appGesture app g) = drawGesture cm g)
  /\ (App.wsClient (App.clearClick app) = App.wsClient app
      /\ App.canvasManager (App.clearClick app) = clear cm)
  /\ (App.wsClient (App.undoClick app).2 = App.wsClient app
      /\ App.canvasManager (App.undoClick app).2 = (undo cm).2)
  /\ (App.wsClient (App.redoClick app).2 = App.wsClient app
      /\ App.canvasManager (App.redoClick app).2 = (redo cm).2).
Proof.
  intros Hc cm. split; [split; [| apply appGesture_manager] | split; [| split]].
  - unfold appGesture, App.pointerUp, App.forwardDraw.
    cbn [App.wsClient App.canvasManager App.set_canvasManager App.set_wsClient].
    assert (App.wsClient (App.pointerDown app (down g)) = App.wsClient app) as Hd.
    { unfold App.pointerDown, App.forwardDraw.
      cbn [App.wsClient App.canvasManager App.set_canvasManager App.set_wsClient].
      apply sendDrawing_fold_offline, Hc. }
    rewrite sendDrawing_fold_offline; rewrite appMoves_offline; rewrite ?Hd; trivial.
  - unfold App.clearClick, WebSocketClient.clearCanvas.
    cbn [App.wsClient App.canvasManager App.set_canvasManager App.set_wsClient].
    rewrite Hc. split; reflexivity.
  - unfold App.undoClick. cbv zeta. fold cm.
    destruct (undo cm) as [[[|] | e] cm']; cbn; unfold WebSocketClient.sendUndo;
      rewrite ?Hc; split; reflexivity.
  - unfold App.redoClick. cbv zeta. fold cm.
    destruct (redo cm) as [[[|] | e] cm']; cbn; unfold WebSocketClient.sendRedo;
      rewrite ?Hc; split; reflexivity.
Qed.

End AppStroke.

(** ** Replaying a stroke on a peer *)



Lemma styleCtx_closePath (m col : string) (w : Z) (c : Canvas2D.Canvas) :
  styleCtx m col w (Canvas2D.closePath c) = Canvas2D.closePath (styleCtx m col w c).
Proof.
  unfold styleCtx, Canvas2D.closePath. cbn.
  destruct (last (Canvas2D.path c)); reflexivity.
Qed.



Section Replay.
Context `{!Canvas2D.Rasterizer}.









End Replay.

(** ** From one client's pointer to a peer's layer *)


Section AppReplay.
Context `{!Canvas2D.Rasterizer}.





End AppReplay.

(** ** What a stroke can write *)


Section StrokeWrites.
Context `{!Canvas2D.Rasterizer}.





End StrokeWrites.

(** ** Input that draws nothing *)

Lemma forwardDraw_nothing (app : App.t) :
  App.forwardDraw (App.canvasManager app) (App.set_canvasManager (App.canvasManager app) app)
  = app.
Proof.
  unfold App.forwardDraw.
  cbn [App.wsClient App.canvasManager App.set_canvasManager App.set_wsClient].
  rewrite drop_all. destruct app; reflexivity.
Qed.

Section Ignored.
Context `{!Canvas2D.Rasterizer}.

Lemma appMoves_idle (es : list PointerEvent) (app : App.t) :
  drawing (App.canvasManager app) = false ->
  fold_left App.pointerMove es app = app.
Proof.
  intros Hd. induction es as [| e es IH]; [reflexivity |]. cbn [fold_left].
  assert (App.pointerMove app e = app) as ->; [| exact IH].
  unfold App.pointerMove, handlePointerMove. rewrite Hd. cbn [negb].
  apply forwardDraw_nothing.
Qed.

(** X16. A press with another button than the primary one starts no
    stroke, and moves and releases outside a stroke do nothing: the whole
    gesture leaves the application as it was, history and socket
    included. *)
Theorem secondary_button_gesture_ignored (app : App.t) (g : Gesture) :
  drawing (App.canvasManager app) = false ->
  isPrimary (down g) = false ->
  appGesture app g = app.
Proof.
  intros Hd Hp. unfold appGesture.
  assert (App.pointerDown app (down g) = app) as ->.
  { unfold App.pointerDown. rewrite (handlePointerDown_blocked _ _ Hp).
    apply forwardDraw_nothing. }
  rewrite (appMoves_idle _ _ Hd).
  unfold App.pointerUp, handlePointerUp. rewrite Hd. cbn [negb].
  apply forwardDraw_nothing.
Qed.

(** X18. The ['drawing'] handler throws in exactly one situation: the
    event names its author, is a [start] or a [move], and has no
    [pos]. *)
Theorem applyRemoteDrawing_throws_iff (cm : CanvasManager) (d : Wire.Data) :
  (exists err cm', applyRemoteDrawing cm d = Throw err cm')
  <-> (is_Some (Wire.truthyId d)
       /\ (Wire.type d = "start" \/ Wire.type d = "move")
       /\ Wire.pos d = None).
Proof.
  split.
  - intros (err & cm' & Ht). unfold applyRemoteDrawing in Ht.
    destruct (Wire.truthyId d) as [A |]; [| discriminate Ht]. cbv zeta in Ht.
    split; [eauto |].
    destruct (decide (Wire.type d = "start")) as [Hs | Hs].
    + destruct (Wire.pos d); [discriminate Ht | auto].
    + destruct (decide (Wire.type d = "move")) as [Hmv | Hmv].
      * destruct (Wire.pos d); [discriminate Ht | auto].
      * destruct (decide (Wire.type d = "end")); discriminate Ht.
  - intros ([A HA] & Ht & Hpos).
    destruct (drawing_without_pos cm d A HA Ht Hpos) as [cm' E]. eauto.
Qed.

End Ignored.

(** ** The roster *)

Lemma onUsersUpdate_snoc (self : string) (roster : gmap string Roster.User)
  (users : list Roster.User) (u : Roster.User) :
  Roster.onUsersUpdate self roster (users ++ [u])
  = if decide (Roster.userId u <> self)
    then <[Roster.userId u := u]> (Roster.onUsersUpdate self roster users)
    else Roster.onUsersUpdate self roster users.
Proof. unfold Roster.onUsersUpdate. rewrite fold_left_app. reflexivity. Qed.

(** X17. After a [users-update] the roster holds, for every id but one's
    own, the last record the list has for that id, and nothing else:
    oneself is never listed, and nothing of the previous roster
    survives. *)
Theorem users_update_replaces_roster (self : string) (roster : gmap string Roster.User)
  (users : list Roster.User) (id : string) :
  Roster.onUsersUpdate self roster users !! id
  = if decide (id = self) then None
    else last (filter (fun u => Roster.userId u = id) users).
Proof.
  induction users as [| u users IH] using rev_ind.
  - cbn. rewrite lookup_empty. destruct (decide (id = self)); reflexivity.
  - rewrite onUsersUpdate_snoc, filter_app, filter_cons, filter_nil.
    destruct (decide (Roster.userId u <> self)) as [Hu | Hu].
    + destruct (decide (Roster.userId u = id)) as [E | E].
      * rewrite E, lookup_insert_eq, last_snoc.
        destruct (decide (id = self)); [congruence | reflexivity].
      * rewrite lookup_insert_ne, app_nil_r by exact E. exact IH.
    + apply dec_stable in Hu.
      destruct (decide (Roster.userId u = id)) as [E | E].
      * rewrite IH. destruct (decide (id = self)); [reflexivity | congruence].
      * rewrite app_nil_r. exact IH.
Qed.

(** X19. A user who joins and leaves again leaves the roster as it was;
    while present the user counts as one more, under the id of the join
    message; a leave message for an unknown id changes nothing. *)
Theorem join_then_leave_restores_roster (roster : gmap string Roster.User)
  (data : Roster.User) :
  roster !! Roster.userId data = None ->
  Roster.onUserJoin roster data !! Roster.userId data = Some data
  /\ Roster.totalUsers (Roster.onUserJoin roster data) = S (Roster.totalUsers roster)
  /\ Roster.onUserLeave (Roster.onUserJoin roster data) (Roster.userId data) = roster
  /\ Roster.onUserLeave roster (Roster.userId data) = roster.
Proof.
  intros Hnone. unfold Roster.onUserJoin, Roster.onUserLeave, Roster.totalUsers.
  rewrite lookup_insert_eq, Hnone, map_size_insert_None by exact Hnone.
  repeat split.
  - destruct data; reflexivity.
  - apply delete_insert_id. exact Hnone.
Qed.

(** ** Instances of the properties above *)

Lemma user_left_removes_only_their_layer_witness :
  remoteGet "bob"
    (remoteCanvases (App.canvasManager (App.socketUserLeft sharedApp bobClears)))
  = None.
Proof.
  assert (Wire.userId bobClears = Some "bob") as Hid by reflexivity.
  assert (NoDup (map fst (remoteCanvases (App.canvasManager sharedApp)))) as Hnd
    by (vm_compute; apply NoDup_singleton).
  exact (proj1 (user_left_removes_only_their_layer sharedApp bobClears "bob" Hid Hnd)).
Defined.

Lemma remote_snapshot_replaces_sender_layer_witness :
  let cm' := App.canvasManager (App.socketUndo aliceApp bobUndoMessage) in
  remoteBitmap cm' "bob" = {[ (1, 2) := "#0000ff" ]}.
Proof.
  assert (Wire.truthyId bobUndoMessage = Some "bob") as Hid by reflexivity.
  assert ("bob" <> WebSocketClient.userId (App.wsClient aliceApp)) as Hne by discriminate.
  assert (Wire.canvasData bobUndoMessage
          = Some (Canvas2D.PngImage {[ (1, 2) := "#0000ff" ]})) as Hdata by reflexivity.
  exact (proj1 (proj2 (proj2 (remote_snapshot_replaces_sender_layer aliceApp bobUndoMessage))
                  "bob" {[ (1, 2) := "#0000ff" ]} Hid Hne Hdata)).
Defined.

Lemma undo_broadcast_converges_witness :
  let a' := (App.undoClick aliceUndoes).2 in
  exists m,
    sentSince (App.wsClient aliceUndoes) (App.wsClient a') = [("undo", m)]
    /\ remoteBitmap (App.canvasManager (App.socketUndo bobApp m))
         (WebSocketClient.userId (App.wsClient aliceUndoes))
       = Canvas2D.bitmap (userCanvas (App.canvasManager a'))
    /\ Canvas2D.bitmap (userCanvas (App.canvasManager a')) = ∅.
Proof.
  assert (WebSocketClient.connected (App.wsClient aliceUndoes) = true) as Hc by reflexivity.
  assert (Canvas2D.nonempty (WebSocketClient.userId (App.wsClient aliceUndoes)) = true)
    as Hn by reflexivity.
  assert (WebSocketClient.userId (App.wsClient aliceUndoes)
          <> WebSocketClient.userId (App.wsClient bobApp)) as Hne by discriminate.
  assert (undoStack (App.canvasManager aliceUndoes) = [] ++ [Canvas2D.PngImage ∅]) as Hu
    by (vm_compute; reflexivity).
  exact (proj1 (undo_broadcast_converges aliceUndoes bobApp [] ∅ Hc Hn Hne) Hu).
Defined.

Lemma clear_broadcast_converges_witness :
  let a' := App.clearClick aliceUndoes in
  exists m,
    sentSince (App.wsClient aliceUndoes) (App.wsClient a') = [("clear-canvas", m)]
    /\ Canvas2D.bitmap (userCanvas (App.canvasManager a')) = ∅
    /\ remoteBitmap (App.canvasManager (App.socketClearCanvas bobApp m))
         (WebSocketClient.userId (App.wsClient aliceUndoes)) = ∅.
Proof.
  assert (WebSocketClient.connected (App.wsClient aliceUndoes) = true) as Hc by reflexivity.
  assert (Canvas2D.nonempty (WebSocketClient.userId (App.wsClient aliceUndoes)) = true)
    as Hn by reflexivity.
  assert (WebSocketClient.userId (App.wsClient aliceUndoes) <> App.userId bobApp)
    as Hne by discriminate.
  exact (clear_broadcast_converges aliceUndoes bobApp Hc Hn Hne).
Defined.

Lemma offline_actions_stay_local_witness :
  App.wsClient (@appGesture vertexRasterizer offlineApp lineGesture) = App.wsClient offlineApp
  /\ App.canvasManager (@appGesture vertexRasterizer offlineApp lineGesture)
     = @drawGesture vertexRasterizer (App.canvasManager offlineApp) lineGesture.
Proof.
  assert (WebSocketClient.connected (App.wsClient offlineApp) = false) as Hc by reflexivity.
  exact (proj1 (@offline_actions_stay_local vertexRasterizer offlineApp lineGesture Hc)).
Defined.

Lemma undo_restores_previous_pixels_witness :
  (undo (@drawGesture vertexRasterizer (newCanvasManager 0 0) lineGesture)).1 = Resolved true
  /\ Canvas2D.bitmap
       (userCanvas (undo (@drawGesture vertexRasterizer (newCanvasManager 0 0) lineGesture)).2)
     = Canvas2D.bitmap (userCanvas (newCanvasManager 0 0)).
Proof.
  assert (isPrimary (down lineGesture) = true) as Hp by reflexivity.
  exact (proj1 (@undo_restores_previous_pixels vertexRasterizer (newCanvasManager 0 0)
                  lineGesture) Hp).
Defined.


Lemma stroke_announces_start_moves_end_witness :
  let cm := App.canvasManager aliceDrawing in
  let p0 := getPointerPos cm (down lineGesture) in
  let pN := default p0 (getPointerPos cm <$> last (moves lineGesture)) in
  emitted (@drawGesture vertexRasterizer cm lineGesture)
  = emitted cm
    ++ (if onStateChange cm then
          [drawPayload cm "start" p0]
          ++ map (fun e => drawPayload cm "move" (getPointerPos cm e)) (moves lineGesture)
          ++ [drawPayload cm "end" pN]
        else []).
Proof.
  assert (isPrimary (down lineGesture) = true) as Hp by reflexivity.
  exact (@stroke_announces_start_moves_end vertexRasterizer (App.canvasManager aliceDrawing)
           lineGesture Hp).
Defined.


Lemma secondary_button_gesture_ignored_witness :
  @appGesture vertexRasterizer aliceDrawing secondaryGesture = aliceDrawing.
Proof.
  assert (drawing (App.canvasManager aliceDrawing) = false) as Hd by reflexivity.
  assert (isPrimary (down secondaryGesture) = false) as Hp by reflexivity.
  exact (@secondary_button_gesture_ignored vertexRasterizer aliceDrawing secondaryGesture
           Hd Hp).
Defined.

Lemma join_then_leave_restores_roster_witness :
  Roster.onUserJoin ∅ bobUser !! Roster.userId bobUser = Some bobUser
  /\ Roster.totalUsers (Roster.onUserJoin ∅ bobUser) = S (Roster.totalUsers ∅).
Proof.
  assert ((∅ : gmap string Roster.User) !! Roster.userId bobUser = None) as Hnone
    by apply lookup_empty.
  pose proof (join_then_leave_restores_roster ∅ bobUser Hnone) as H.
  exact (conj (proj1 H) (proj1 (proj2 H))).
Defined.
